(** * zod-openapi: schema synthesis, shallow embedding

    Sources embedded here:
    - [src/create/schema/index.ts]: the type dispatcher [createSchema] and the
      name-keyed registry [createRegisteredSchema] (module [Index]);
    - [src/create/schema/parsers/object.ts]: the object composer
      (module [ObjectParser]).

    JavaScript values are modelled as follows.
    - A schema fragment ([oas31.SchemaObject], [oas31.ReferenceObject]) is a
      JavaScript object: a list of own properties in insertion order.  Writing
      a key ([obj_set]) replaces the value in place when the key exists and
      appends otherwise; object spread ([spread]) writes the source's
      properties one after the other.
    - A zod node is an immutable value carrying an identity [zid]; [===] on
      nodes compares identities.
    - A function that mutates shared state or throws is a function from the
      state to an outcome and the state reached: mutations made before a
      [throw] stay visible.
    - A shape is the list [Object.entries] gives, in its order: how
      JavaScript reorders keys that look like array indices is outside the
      model.
    - Shapes, the registry and the [properties] object are plain objects,
      whose prototype is [Object.prototype]: reading a key that is no own
      property finds the member of [Object.prototype] of that name when
      there is one ([prop_get], [registry_get]), and writing [__proto__]
      where it is no own property runs the setter of [Object.prototype],
      which replaces the prototype and defines no property ([prop_set],
      [registry_set]).  The lists and maps hold the own properties, which
      is what the emitted document holds. *)

From Stdlib Require Import String List Bool ZArith.
From stdpp Require Import base option list strings gmap.
Import ListNotations.
Local Open Scope string_scope.
Local Open Scope list_scope.
Set Warnings "-register-all".

(** ** JSON values and objects *)

Inductive json : Type :=
| JNull
| JBool (b : bool)
| JNumber (n : Z)
| JString (s : string)
| JArray (items : list json)
| JObject (fields : list (string * json)).

(** An object: its own enumerable properties, in insertion order. *)
Definition SchemaObject : Type := list (string * json).

(** [o[k]] for an own property ([None] is [undefined]). *)
Fixpoint obj_get {V : Type} (k : string) (o : list (string * V)) : option V :=
  match o with
  | [] => None
  | (k', v) :: o' => if String.eqb k k' then Some v else obj_get k o'
  end.

(** [o] has the own property [k].  This is [k in o] where [k] is no member
    of [Object.prototype], as for ['$ref' in schemaOrRef]. *)
Definition has_key {V : Type} (k : string) (o : list (string * V)) : bool :=
  match obj_get k o with Some _ => true | None => false end.

(** Defining the property [k] of [o], as an object literal or a spread
    does: an existing key keeps its place, a new key goes last. *)
Fixpoint obj_set {V : Type} (k : string) (v : V) (o : list (string * V))
  : list (string * V) :=
  match o with
  | [] => [(k, v)]
  | (k', v') :: o' =>
      if String.eqb k k' then (k', v) :: o' else (k', v') :: obj_set k v o'
  end.

(** [{ ...target, ...src }]. *)
Definition spread (target src : SchemaObject) : SchemaObject :=
  fold_left (fun acc kv => obj_set (fst kv) (snd kv) acc) src target.

(** [{ ...target, ...(c && src) }]: spreading [false], [0] or [undefined]
    adds nothing. *)
Definition spread_if (c : bool) (target src : SchemaObject) : SchemaObject :=
  if c then spread target src else target.

Definition keys {V : Type} (o : list (string * V)) : list string := map fst o.

(** *** Reads and writes through the prototype

    The own property names of [Object.prototype]: those of ECMAScript
    (20.1.3) and the legacy accessors, as
    [Object.getOwnPropertyNames(Object.prototype)] lists them in Node. *)
Definition Object_prototype_members : list string :=
  ["constructor"; "__defineGetter__"; "__defineSetter__"; "hasOwnProperty";
   "__lookupGetter__"; "__lookupSetter__"; "isPrototypeOf";
   "propertyIsEnumerable"; "toString"; "valueOf"; "__proto__";
   "toLocaleString"].

Definition is_prototype_member (k : string) : bool :=
  existsb (String.eqb k) Object_prototype_members.

(** What [o[k]] evaluates to on a plain object whose own properties hold
    values of type [V]: the own property; else the member of
    [Object.prototype] of that name, a function or, for [__proto__],
    [Object.prototype] itself: a value that is truthy, is not [undefined]
    and is [===] to no value of [V]; else [undefined]. *)
Inductive Property (V : Type) : Type :=
| Own (v : V)
| Inherited
| Undefined.
Arguments Own {V} v.
Arguments Inherited {V}.
Arguments Undefined {V}.

Definition prop_get {V : Type} (k : string) (o : list (string * V))
  : Property V :=
  match obj_get k o with
  | Some v => Own v
  | None => if is_prototype_member k then Inherited else Undefined
  end.

(** [o[k] = v] on a plain object.  An own property is overwritten.  Where
    [__proto__] is no own property the assignment reaches the setter of
    [Object.prototype]: the prototype of [o] is replaced (by [v] when it is
    an object) and no property is defined.  The other members of
    [Object.prototype] are writable data properties, which an assignment
    shadows by an own property like any new key. *)
Definition prop_set {V : Type} (k : string) (v : V) (o : list (string * V))
  : list (string * V) :=
  if has_key k o then obj_set k v o
  else if String.eqb k "__proto__" then o
  else obj_set k v o.

(** JavaScript truthiness of a JSON value. *)
Definition truthy (v : json) : bool :=
  match v with
  | JNull => false
  | JBool b => b
  | JNumber n => negb (Z.eqb n 0)
  | JString s => negb (String.eqb s "")
  | JArray _ | JObject _ => true
  end.

(** Truthiness of a [string | undefined]. *)
Definition truthy_string (s : option string) : bool :=
  match s with
  | Some s => negb (String.eqb s "")
  | None => false
  end.

(** ** Zod nodes *)

Inductive ZodFirstPartyTypeKind : Type :=
| ZodString | ZodNumber | ZodBoolean | ZodEnum | ZodLiteral | ZodNativeEnum
| ZodArray | ZodObject | ZodUnion | ZodDiscriminatedUnion | ZodNull
| ZodNullable | ZodOptional | ZodDefault | ZodRecord | ZodTuple | ZodDate
| ZodEffects | ZodNever | ZodUndefined | ZodAny | ZodUnknown.

Inductive UnknownKeysParam : Type := passthrough | strict | strip.

Inductive EffectType : Type := refinement | transform | preprocess.

(** [_def.openapi]: the registry name requested for the node, and the
    schema keys supplied by hand ([type], [format], ...). *)
Record ZodOpenApiMetadata : Type := {
  ref : option string;
  manual : SchemaObject
}.

Inductive ZodType : Type :=
| MkZod (zid : positive) (openapi : option ZodOpenApiMetadata) (def : ZodTypeDef)
with ZodTypeDef : Type :=
| ZodStringDef
| ZodNumberDef
| ZodBooleanDef
| ZodDateDef
| ZodNullDef
| ZodNeverDef
| ZodUndefinedDef
| ZodAnyDef
| ZodUnknownDef
| ZodEnumDef (values : list string)
| ZodNativeEnumDef (values : list (string * json))
| ZodLiteralDef (value : json)
| ZodArrayDef (element : ZodType)
| ZodObjectDef (shape : list (string * ZodType)) (unknownKeys : UnknownKeysParam)
    (catchall : ZodType) (extendMetadata : option ZodType)
| ZodUnionDef (options : list ZodType)
| ZodDiscriminatedUnionDef (discriminator : string) (options : list ZodType)
| ZodNullableDef (innerType : ZodType)
| ZodOptionalDef (innerType : ZodType)
| ZodDefaultDef (innerType : ZodType) (defaultValue : json)
| ZodRecordDef (keyType valueType : ZodType)
| ZodTupleDef (items : list ZodType)
| ZodEffectsDef (inner : ZodType) (effect : EffectType).

(** The identity of a node: what [===] and a [Map] keyed by nodes compare. *)
Definition zid (z : ZodType) : positive := let 'MkZod i _ _ := z in i.
Definition openapi (z : ZodType) : option ZodOpenApiMetadata :=
  let 'MkZod _ m _ := z in m.
Definition _def (z : ZodType) : ZodTypeDef := let 'MkZod _ _ d := z in d.

(** [a === b] on nodes. *)
Definition same_node (a b : ZodType) : bool := Pos.eqb (zid a) (zid b).

Definition typeName (z : ZodType) : ZodFirstPartyTypeKind :=
  match _def z with
  | ZodStringDef => ZodString
  | ZodNumberDef => ZodNumber
  | ZodBooleanDef => ZodBoolean
  | ZodDateDef => ZodDate
  | ZodNullDef => ZodNull
  | ZodNeverDef => ZodNever
  | ZodUndefinedDef => ZodUndefined
  | ZodAnyDef => ZodAny
  | ZodUnknownDef => ZodUnknown
  | ZodEnumDef _ => ZodEnum
  | ZodNativeEnumDef _ => ZodNativeEnum
  | ZodLiteralDef _ => ZodLiteral
  | ZodArrayDef _ => ZodArray
  | ZodObjectDef _ _ _ _ => ZodObject
  | ZodUnionDef _ => ZodUnion
  | ZodDiscriminatedUnionDef _ _ => ZodDiscriminatedUnion
  | ZodNullableDef _ => ZodNullable
  | ZodOptionalDef _ => ZodOptional
  | ZodDefaultDef _ _ => ZodDefault
  | ZodRecordDef _ _ => ZodRecord
  | ZodTupleDef _ => ZodTuple
  | ZodEffectsDef _ _ => ZodEffects
  end.

Definition kind_eqb (a b : ZodFirstPartyTypeKind) : bool :=
  match a, b with
  | ZodString, ZodString | ZodNumber, ZodNumber | ZodBoolean, ZodBoolean
  | ZodEnum, ZodEnum | ZodLiteral, ZodLiteral | ZodNativeEnum, ZodNativeEnum
  | ZodArray, ZodArray | ZodObject, ZodObject | ZodUnion, ZodUnion
  | ZodDiscriminatedUnion, ZodDiscriminatedUnion | ZodNull, ZodNull
  | ZodNullable, ZodNullable | ZodOptional, ZodOptional
  | ZodDefault, ZodDefault | ZodRecord, ZodRecord | ZodTuple, ZodTuple
  | ZodDate, ZodDate | ZodEffects, ZodEffects | ZodNever, ZodNever
  | ZodUndefined, ZodUndefined | ZodAny, ZodAny | ZodUnknown, ZodUnknown => true
  | _, _ => false
  end.

(** [zodSchema._def.openapi?.ref]. *)
Definition openapi_ref (z : ZodType) : option string :=
  match openapi z with Some m => ref m | None => None end.

(** [zodSchema._def.openapi?.type]. *)
Definition openapi_type (z : ZodType) : option json :=
  match openapi z with Some m => obj_get "type" (manual m) | None => None end.

(** ** Outcomes of code that mutates state and may throw *)

Inductive Error : Type :=
| UnknownSchema (z : ZodType)
    (* `Unknown schema ${zodSchema.toString()}. Please assign it a manual type` *)
| AlreadyRegistered (schemaRef : string)
    (* `schemaRef ${schemaRef} is already registered` *)
| UnexpectedReference
    (* 'Unexpected Error: received a reference object' *)
| OtherError (msg : string)
    (* an error raised by code outside the embedded files *)
| OutOfFuel.
    (* no JavaScript error: the recursion budget of a model ran out *)

Inductive Result (A : Type) : Type :=
| Return (a : A)
| Throw (e : Error).
Arguments Return {A} a.
Arguments Throw {A} e.

(** A computation over a mutable state [S]. *)
Definition M (S A : Type) : Type := S -> Result A * S.

Definition ret {S A} (a : A) : M S A := fun s => (Return a, s).
Definition throw {S A} (e : Error) : M S A := fun s => (Throw e, s).
Definition bind {S A B} (c : M S A) (k : A -> M S B) : M S B :=
  fun s =>
    match c s with
    | (Return a, s') => k a s'
    | (Throw e, s') => (Throw e, s')
    end.

Declare Scope js_scope.
Delimit Scope js_scope with js.
Notation "'let*' x ':=' c 'in' k" := (bind c (fun x => k))
  (at level 10, x name, c at level 100, k at level 200) : js_scope.
Local Open Scope js_scope.

Definition get_state {S} : M S S := fun s => (Return s, s).

(** [Array.prototype.reduce] with a callback that runs in [M]. *)
Fixpoint reduceM {S A B} (f : A -> B -> M S A) (l : list B) (acc : A) : M S A :=
  match l with
  | [] => ret acc
  | x :: l' => let* acc' := f acc x in reduceM f l' acc'
  end.

(** ** [src/create/schema/index.ts] *)

Module Index.

(** One entry of [components.schema]. *)
Record SchemaComponent : Type := {
  schemaObject : SchemaObject;
  zodSchema : ZodType
}.

(** [Components]: [components.schema] is a plain object used as a map from
    the registered name to its entry; [schema] holds its own properties. *)
Record Components : Type := {
  schema : gmap string SchemaComponent
}.

(** [components.schema[schemaRef]], read through the prototype. *)
Definition registry_get (schemaRef : string)
  (registry : gmap string SchemaComponent) : Property SchemaComponent :=
  match registry !! schemaRef with
  | Some component => Own component
  | None => if is_prototype_member schemaRef then Inherited else Undefined
  end.

(** [components.schema[schemaRef] = entry]: see [prop_set]. *)
Definition registry_set (schemaRef : string) (entry : SchemaComponent)
  (registry : gmap string SchemaComponent) : gmap string SchemaComponent :=
  match registry !! schemaRef with
  | Some _ => <[schemaRef := entry]> registry
  | None =>
      if String.eqb schemaRef "__proto__" then registry
      else <[schemaRef := entry]> registry
  end.

(** The generators imported at the head of the file.  The first group takes
    the node alone, the second the node and [components]. *)
Inductive LeafGenerator : Type :=
| createStringSchema | createNumberSchema | createBooleanSchema
| createEnumSchema | createLiteralSchema | createNativeEnumSchema
| createNullSchema | createDateSchema.

Inductive CompositeGenerator : Type :=
| createArraySchema | createObjectSchema | createUnionSchema
| createDiscriminatedUnionSchema | createNullableSchema
| createOptionalSchema | createDefaultSchema | createRecordSchema
| createTupleSchema | createEffectsSchema.

(** The arm of [createSchema] a node is routed to. *)
Inductive Arm : Type :=
| Leaf (g : LeafGenerator)
| Composite (g : CompositeGenerator).

(** [createComponentSchemaRef]. *)
Definition createComponentSchemaRef (schemaRef : string) : string :=
  "#/components/schemas/" +:+ schemaRef.

(** [zodSchema instanceof C]: one class per kind. *)
Definition instanceof (z : ZodType) (C : ZodFirstPartyTypeKind) : bool :=
  kind_eqb (typeName z) C.

(** [zodSchema._def.effect.type] of a [ZodEffects] node. *)
Definition effect_type (z : ZodType) : option EffectType :=
  match _def z with
  | ZodEffectsDef _ e => Some e
  | _ => None
  end.

Definition is_refinement_or_preprocess (z : ZodType) : bool :=
  match effect_type z with
  | Some refinement | Some preprocess => true
  | _ => false
  end.

(** The generator of each variant, as a table; a transform has none, nor
    have the never, undefined, any and unknown nodes. *)
Definition generator_of (z : ZodType) : option Arm :=
  match _def z with
  | ZodStringDef => Some (Leaf createStringSchema)
  | ZodNumberDef => Some (Leaf createNumberSchema)
  | ZodBooleanDef => Some (Leaf createBooleanSchema)
  | ZodEnumDef _ => Some (Leaf createEnumSchema)
  | ZodLiteralDef _ => Some (Leaf createLiteralSchema)
  | ZodNativeEnumDef _ => Some (Leaf createNativeEnumSchema)
  | ZodArrayDef _ => Some (Composite createArraySchema)
  | ZodObjectDef _ _ _ _ => Some (Composite createObjectSchema)
  | ZodUnionDef _ => Some (Composite createUnionSchema)
  | ZodDiscriminatedUnionDef _ _ => Some (Composite createDiscriminatedUnionSchema)
  | ZodNullDef => Some (Leaf createNullSchema)
  | ZodNullableDef _ => Some (Composite createNullableSchema)
  | ZodOptionalDef _ => Some (Composite createOptionalSchema)
  | ZodDefaultDef _ _ => Some (Composite createDefaultSchema)
  | ZodRecordDef _ _ => Some (Composite createRecordSchema)
  | ZodTupleDef _ => Some (Composite createTupleSchema)
  | ZodDateDef => Some (Leaf createDateSchema)
  | ZodEffectsDef _ refinement | ZodEffectsDef _ preprocess =>
      Some (Composite createEffectsSchema)
  | ZodEffectsDef _ transform => None
  | ZodNeverDef | ZodUndefinedDef | ZodAnyDef | ZodUnknownDef => None
  end.

(** [zodSchema._def.openapi?.type] is truthy. *)
Definition has_manual_type (z : ZodType) : bool :=
  match openapi_type z with
  | Some t => truthy t
  | None => false
  end.

Section Dispatcher.

(** The generators live in other files: they are parameters here. *)
Variable leaf : LeafGenerator -> ZodType -> Result SchemaObject.
Variable composite : CompositeGenerator -> ZodType -> M Components SchemaObject.

Definition run_leaf (g : LeafGenerator) (z : ZodType)
  : M Components SchemaObject :=
  fun components => (leaf g z, components).

Definition run_arm (a : Arm) (z : ZodType) : M Components SchemaObject :=
  match a with
  | Leaf g => run_leaf g z
  | Composite g => composite g z
  end.

(** [createSchema]: the cascade of [instanceof] tests, top to bottom; when
    none succeeds the node needs a manual type, and the fragment returned
    is the empty object. *)
Definition createSchema (zodSchema : ZodType) : M Components SchemaObject :=
  if instanceof zodSchema ZodString
  then run_leaf createStringSchema zodSchema
  else if instanceof zodSchema ZodNumber
  then run_leaf createNumberSchema zodSchema
  else if instanceof zodSchema ZodBoolean
  then run_leaf createBooleanSchema zodSchema
  else if instanceof zodSchema ZodEnum
  then run_leaf createEnumSchema zodSchema
  else if instanceof zodSchema ZodLiteral
  then run_leaf createLiteralSchema zodSchema
  else if instanceof zodSchema ZodNativeEnum
  then run_leaf createNativeEnumSchema zodSchema
  else if instanceof zodSchema ZodArray
  then composite createArraySchema zodSchema
  else if instanceof zodSchema ZodObject
  then composite createObjectSchema zodSchema
  else if instanceof zodSchema ZodUnion
  then composite createUnionSchema zodSchema
  else if instanceof zodSchema ZodDiscriminatedUnion
  then composite createDiscriminatedUnionSchema zodSchema
  else if instanceof zodSchema ZodNull
  then run_leaf createNullSchema zodSchema
  else if instanceof zodSchema ZodNullable
  then composite createNullableSchema zodSchema
  else if instanceof zodSchema ZodOptional
  then composite createOptionalSchema zodSchema
  else if instanceof zodSchema ZodDefault
  then composite createDefaultSchema zodSchema
  else if instanceof zodSchema ZodRecord
  then composite createRecordSchema zodSchema
  else if instanceof zodSchema ZodTuple
  then composite createTupleSchema zodSchema
  else if instanceof zodSchema ZodDate
  then run_leaf createDateSchema zodSchema
  else if instanceof zodSchema ZodEffects && is_refinement_or_preprocess zodSchema
  then composite createEffectsSchema zodSchema
  else if instanceof zodSchema ZodNativeEnum
  then run_leaf createNativeEnumSchema zodSchema
  else if negb (has_manual_type zodSchema)
  then throw (UnknownSchema zodSchema)
  else ret [].

End Dispatcher.

Section Registry.

(** [createSchemaWithMetadata], imported from [./metadata]. *)
Variable createSchemaWithMetadata : ZodType -> M Components SchemaObject.

(** [createRegisteredSchema].  [if (component)] holds for an own entry and
    for a member of [Object.prototype] alike; such a member has no
    [zodSchema] property, so that [component.zodSchema !== zodSchema]. *)
Definition createRegisteredSchema (zodSchema : ZodType) (schemaRef : string)
  : M Components SchemaObject :=
  fun components =>
    match registry_get schemaRef (schema components) with
    | Own component =>
        if negb (same_node (Index.zodSchema component) zodSchema)
        then (Throw (AlreadyRegistered schemaRef), components)
        else (Return [("$ref", JString (createComponentSchemaRef schemaRef))],
              components)
    | Inherited => (Throw (AlreadyRegistered schemaRef), components)
    | Undefined =>
        match createSchemaWithMetadata zodSchema components with
        | (Throw e, components1) => (Throw e, components1)
        | (Return schemaOrRef, components1) =>
            if has_key "$ref" schemaOrRef
            then (Throw UnexpectedReference, components1)
            else
              (Return [("$ref", JString (createComponentSchemaRef schemaRef))],
               {| schema :=
                    registry_set schemaRef
                      {| schemaObject := schemaOrRef;
                         zodSchema := zodSchema |}
                      (schema components1) |})
        end
    end.

(** [createSchemaOrRef]. *)
Definition createSchemaOrRef (zodSchema : ZodType) : M Components SchemaObject :=
  match openapi_ref zodSchema with
  | Some schemaRef =>
      if negb (String.eqb schemaRef "")
      then createRegisteredSchema zodSchema schemaRef
      else createSchemaWithMetadata zodSchema
  | None => createSchemaWithMetadata zodSchema
  end.

End Registry.

End Index.

(** ** [src/create/schema/parsers/object.ts] *)

Module ObjectParser.

(** Modelled from the spec: the mode of the synthesis, [state.type]; the
    type is declared in a file that is not among the sources. *)
Inductive CreationType : Type := input | output.

(** Modelled from the spec: an effect (section 3), with the fields the
    object literals of [object.ts] and its tests give it; the type is
    declared in [../../components]. *)
Inductive Effect : Type :=
| SchemaEffect (creationType : CreationType) (zodType : ZodType) (path : list string)
    (* { type: 'schema', creationType, zodType, path } *)
| ComponentEffect (zodType : ZodType) (path : list string).
    (* { type: 'component', zodType, path } *)

Inductive SchemaKind : Type := KSchema | KRef.

(** Modelled from the spec: [Schema], the result fragment (section 3), with
    the fields [createObjectSchemaFromShape] writes; [effects] is optional.
    The type is declared in [../../schema]. *)
Record Schema : Type := {
  type : SchemaKind;
  schema : SchemaObject;
  effects : option (list Effect)
}.

(** Modelled from the spec: an entry of [state.components.schemas]
    (section 3), complete or in progress; the type is declared in
    [../../components]. *)
Inductive SchemaComponent : Type :=
| Complete (ref : string) (schemaObject : SchemaObject)
    (effects : option (list Effect))
| InProgress (ref : string).

Definition component_ref (c : SchemaComponent) : string :=
  match c with Complete r _ _ => r | InProgress r => r end.

Definition is_complete (c : SchemaComponent) : bool :=
  match c with Complete _ _ _ => true | InProgress _ => false end.

Definition is_in_progress (c : SchemaComponent) : bool :=
  match c with Complete _ _ _ => false | InProgress _ => true end.

(** [completeComponent.effects] of a complete entry. *)
Definition component_effects (c : SchemaComponent) : option (list Effect) :=
  match c with Complete _ _ e => e | InProgress _ => None end.

Record CreateDocumentOptions : Type := {
  componentRefPath : option string
}.

(** Modelled from the spec: [SchemaState], the recursion state (section 2),
    with the fields [object.ts] reads.  [schemas] is
    [state.components.schemas], a [Map] keyed by node identity;
    [state_type] is [state.type].  The type is declared in [../../schema]. *)
Record SchemaState : Type := {
  schemas : gmap positive SchemaComponent;
  state_type : CreationType;
  path : list string;
  documentOptions : option CreateDocumentOptions
}.

Definition set_path (p : list string) (st : SchemaState) : SchemaState :=
  {| schemas := schemas st; state_type := state_type st; path := p;
     documentOptions := documentOptions st |}.

Definition set_schemas (m : gmap positive SchemaComponent) (st : SchemaState)
  : SchemaState :=
  {| schemas := m; state_type := state_type st; path := path st;
     documentOptions := documentOptions st |}.

(** [state.path.push(x)] and [state.path.pop()]. *)
Definition path_push (x : string) (st : SchemaState) : SchemaState :=
  set_path (path st ++ [x]) st.
Definition path_pop (st : SchemaState) : SchemaState :=
  set_path (removelast (path st)) st.

(** [state.documentOptions?.componentRefPath]. *)
Definition state_componentRefPath (st : SchemaState) : option string :=
  match documentOptions st with
  | Some o => componentRefPath o
  | None => None
  end.

Definition creation_eqb (a b : CreationType) : bool :=
  match a, b with
  | input, input | output, output => true
  | _, _ => false
  end.

(** [AdditionalPropertyOptions]. *)
Record AdditionalPropertyOptions : Type := {
  unknownKeys : option UnknownKeysParam;
  catchAll : ZodType
}.

Definition is_strict (u : option UnknownKeysParam) : bool :=
  match u with Some strict => true | _ => false end.

(** What the code reads of a [ZodObject]: [_def.shape()], [_def.unknownKeys],
    [_def.catchall] and [_def.extendMetadata?.extends]. *)
Record ZodObjectDefT : Type := {
  shape : list (string * ZodType);
  def_unknownKeys : UnknownKeysParam;
  catchall : ZodType;
  extends : option ZodType
}.

Definition object_def (z : ZodType) : option ZodObjectDefT :=
  match _def z with
  | ZodObjectDef s u c e =>
      Some {| shape := s; def_unknownKeys := u; catchall := c; extends := e |}
  | _ => None
  end.

Definition options_of (d : ZodObjectDefT) : AdditionalPropertyOptions :=
  {| unknownKeys := Some (def_unknownKeys d); catchAll := catchall d |}.

(** Modelled from the spec: [isZodType] of [zodType.ts], which is not among
    the sources.  The spec speaks of the node's variant: the test compares
    the variant tag. *)
Definition isZodType (z : ZodType) (k : ZodFirstPartyTypeKind) : bool :=
  kind_eqb (typeName z) k.

(** Modelled from the spec: [flattenEffects] of [./transform], which is not
    among the sources.  Effect lists are concatenated in order, duplicates
    kept; a missing list adds nothing.  The tests of the object composer
    expect no [effects] key where nothing was recorded, so an empty result
    is [undefined]. *)
Definition flattenEffects (l : list (option (list Effect)))
  : option (list Effect) :=
  match concat (map (fun e => default [] e) l) with
  | [] => None
  | es => Some es
  end.

(** Modelled from the spec: [createComponentSchemaRef] of [../../components]
    in its two-argument form, which is not among the sources.  The reference
    is the path prefix followed by the name, the prefix being
    [#/components/schemas/] when none is configured. *)
Definition createComponentSchemaRef (schemaRef : string)
  (componentPath : option string) : string :=
  default "#/components/schemas/" componentPath +:+ schemaRef.

Record OptionalResult : Type := {
  optional : bool;
  optional_effects : option (list Effect)
}.

(** Modelled from the spec: [isOptionalSchema] of [./optional], which is not
    among the sources.  An [optional] wrapper is optional; a field whose node
    is the never or the undefined sentinel contributes no required entry; a
    [default] wrapper is optional in input mode and required in output mode,
    and records a [schema] effect whose direction is the active mode at the
    current path; every other node is required. *)
Definition isOptionalSchema (zodSchema : ZodType) (state : SchemaState)
  : OptionalResult :=
  if isZodType zodSchema ZodOptional
     || isZodType zodSchema ZodNever
     || isZodType zodSchema ZodUndefined
  then {| optional := true; optional_effects := None |}
  else if isZodType zodSchema ZodDefault
  then {| optional := creation_eqb (state_type state) input;
          optional_effects :=
            Some [SchemaEffect (state_type state) zodSchema (path state)] |}
  else {| optional := false; optional_effects := None |}.

(** [PropertyMap]. *)
Record PropertyMap : Type := {
  properties : SchemaObject;
  property_effects : list (option (list Effect))
}.

(** The accumulator and the result of [mapRequired]. *)
Record RequiredAcc : Type := {
  acc_required : list string;
  acc_effects : list (list Effect)
}.

Record RequiredResult : Type := {
  required : list string;
  required_effects : option (list Effect)
}.

(** [createDiffOpts]. *)
Definition createDiffOpts (baseOpts extendedOpts : AdditionalPropertyOptions)
  : option AdditionalPropertyOptions :=
  if is_strict (unknownKeys baseOpts)
     || negb (isZodType (catchAll baseOpts) ZodNever)
  then None
  else Some {| catchAll := catchAll extendedOpts;
               unknownKeys := unknownKeys extendedOpts |}.

(** The loop of [createShapeDiff] over [Object.entries(extendedObj)].
    [baseObj[key]] is read through the prototype: for a key that the base
    does not have and that names a member of [Object.prototype] it is that
    member, which is neither [val] nor [undefined], and the function
    returns [null]. *)
Fixpoint createShapeDiff_loop (baseObj : list (string * ZodType))
  (entries : list (string * ZodType)) (acc : list (string * ZodType))
  : option (list (string * ZodType)) :=
  match entries with
  | [] => Some acc
  | (key, val) :: rest =>
      let baseValue := prop_get key baseObj in
      if match baseValue with Own b => same_node val b | _ => false end
      then createShapeDiff_loop baseObj rest acc
      else
        match baseValue with
        | Undefined => createShapeDiff_loop baseObj rest (prop_set key val acc)
        | _ => None
        end
  end.

(** [createShapeDiff]. *)
Definition createShapeDiff (baseObj extendedObj : list (string * ZodType))
  : option (list (string * ZodType)) :=
  createShapeDiff_loop baseObj extendedObj [].

(** The callback of the [reduce] in [mapRequired]. *)
Definition mapRequired_step (acc : RequiredAcc) (entry : string * ZodType)
  : M SchemaState RequiredAcc :=
  fun state =>
    let '(key, zodSchema) := entry in
    let state1 := path_push ("property: " +:+ key) state in
    let r := isOptionalSchema zodSchema state1 in
    let state2 := path_pop state1 in
    let acc1 :=
      if negb (optional r)
      then {| acc_required := acc_required acc ++ [key];
              acc_effects := acc_effects acc |}
      else acc in
    let acc2 :=
      match optional_effects r with
      | Some e => {| acc_required := acc_required acc1;
                     acc_effects := acc_effects acc1 ++ [e] |}
      | None => acc1
      end in
    (Return acc2, state2).

(** [mapRequired]. *)
Definition mapRequired (shape : list (string * ZodType))
  : M SchemaState (option RequiredResult) :=
  let* acc := reduceM mapRequired_step shape
                {| acc_required := []; acc_effects := [] |} in
  ret (Some {| required := acc_required acc;
               required_effects := flattenEffects (map Some (acc_effects acc)) |}).

(** The object literal [createObjectSchemaFromShape] returns as [schema]:
    [type], then one spread per optional key. *)
Definition object_literal (properties : option PropertyMap)
  (required : option RequiredResult) (unknownKeys : option UnknownKeysParam)
  (additionalProperties : option Schema) : SchemaObject :=
  let o := [("type", JString "object")] in
  let o := match properties with
           | Some p => spread o [("properties", JObject (ObjectParser.properties p))]
           | None => o
           end in
  let o := match required with
           | Some r =>
               spread_if (negb (Nat.eqb (length (ObjectParser.required r)) 0)) o
                 [("required", JArray (map JString (ObjectParser.required r)))]
           | None => o
           end in
  let o := spread_if (is_strict unknownKeys) o
             [("additionalProperties", JBool false)] in
  match additionalProperties with
  | Some ap => spread o [("additionalProperties", JObject (schema ap))]
  | None => o
  end.

(** *** Vocabulary of the statements *)

(** A field [mapProperties] skips: the never and the undefined sentinel. *)
Definition is_sentinel (z : ZodType) : bool :=
  isZodType z ZodNever || isZodType z ZodUndefined.

(** The state [mapRequired] shows [isOptionalSchema] for the field [key]. *)
Definition at_property (key : string) (st : SchemaState) : SchemaState :=
  path_push ("property: " +:+ key) st.

(** The fields of a shape that are required in a state, in order. *)
Definition required_fields (st : SchemaState) (shape : list (string * ZodType))
  : list string :=
  map fst
    (List.filter (fun e => negb (optional (isOptionalSchema (snd e) (at_property (fst e) st))))
       shape).

(** The effects recorded while the required fields of a shape are
    determined, in order. *)
Definition required_field_effects (st : SchemaState)
  (shape : list (string * ZodType)) : list Effect :=
  concat
    (map (fun e => default [] (optional_effects
                                 (isOptionalSchema (snd e) (at_property (fst e) st))))
       shape).

(** The effect list of a fragment, [[]] when the key is missing. *)
Definition effect_list (e : option (list Effect)) : list Effect := default [] e.

(** The [properties] object and the [required] array of a fragment, empty
    when the key is missing. *)
Definition fragment_properties (o : SchemaObject) : list (string * json) :=
  match obj_get "properties" o with
  | Some (JObject ps) => ps
  | _ => []
  end.

Definition fragment_required (o : SchemaObject) : list json :=
  match obj_get "required" o with
  | Some (JArray l) => l
  | _ => []
  end.

(** The four conditions under which an extension is to be emitted as
    [allOf]: the base has an entry in the registry, its unknown-keys policy
    is not [strict], its catch-all is the never sentinel, and every key the
    extension shares with the base is bound to the same node in both.  The
    code asks for [added_keys_plain], below, as well. *)
Definition extension_conditions (registry : gmap positive SchemaComponent)
  (baseZodObject : ZodType) (base ext : ZodObjectDefT) : Prop :=
  is_Some (registry !! zid baseZodObject)
  /\ def_unknownKeys base <> strict
  /\ typeName (catchall base) = ZodNever
  /\ (forall k v bv, In (k, v) (shape ext) -> obj_get k (shape base) = Some bv ->
                     zid v = zid bv).

(** No key that the extension adds to the base is the name of a member of
    [Object.prototype]: for such a key [baseObj[key]] in [createShapeDiff]
    is the inherited member and not [undefined]. *)
Definition added_keys_plain (baseObj extendedObj : list (string * ZodType))
  : Prop :=
  forall k v, In (k, v) extendedObj -> obj_get k baseObj = None ->
              is_prototype_member k = false.

(** The [allOf] value that references a registry entry. *)
Definition allOf_reference (c : SchemaComponent) (st : SchemaState) : json :=
  JArray [JObject [("$ref",
    JString (createComponentSchemaRef (component_ref c)
               (state_componentRefPath st)))]].

(** What the base contributes to the effects of an extension: the effects
    stored with a complete entry, a component effect for an entry in
    progress. *)
Definition base_effects (c : SchemaComponent) (zodObject : ZodType)
  (st : SchemaState) : list Effect :=
  match c with
  | Complete _ _ e => effect_list e
  | InProgress _ => [ComponentEffect zodObject (path st)]
  end.

(** The properties written for a list of children, onto [o]. *)
Definition write_properties (children : list (string * Schema))
  (o : SchemaObject) : SchemaObject :=
  fold_left (fun acc kc => prop_set (fst kc) (JObject (schema (snd kc))) acc)
    children o.

Section Composer.

(** [createSchemaObject] of [../../schema], the entry of the dispatcher,
    which is not among the sources: a parameter.  It receives the node, the
    state and the path segments of the call. *)
Variable createSchemaObject : ZodType -> list string -> M SchemaState Schema.

(** The callback of the [reduce] in [mapProperties]. *)
Definition mapProperties_step (acc : PropertyMap) (entry : string * ZodType)
  : M SchemaState PropertyMap :=
  let '(key, zodSchema) := entry in
  if isZodType zodSchema ZodNever || isZodType zodSchema ZodUndefined
  then ret acc
  else
    let* property := createSchemaObject zodSchema ["property: " +:+ key] in
    ret {| properties := prop_set key (JObject (schema property)) (properties acc);
           property_effects := property_effects acc ++ [effects property] |}.

(** [mapProperties]. *)
Definition mapProperties (shape : list (string * ZodType))
  : M SchemaState (option PropertyMap) :=
  let shapeEntries := shape in
  if Nat.eqb (length shapeEntries) 0
  then ret None
  else
    let* acc := reduceM mapProperties_step shapeEntries
                  {| properties := []; property_effects := [] |} in
    ret (Some acc).

(** The call on the catch-all in [createObjectSchemaFromShape]:
    [!isZodType(catchAll, 'ZodNever') ? createSchemaObject(...) : undefined]. *)
Definition createAdditionalProperties (catchAll : ZodType)
  : M SchemaState (option Schema) :=
  if negb (isZodType catchAll ZodNever)
  then let* s := createSchemaObject catchAll ["additional properties"] in
       ret (Some s)
  else ret None.

(** [createObjectSchemaFromShape]. *)
Definition createObjectSchemaFromShape (shape : list (string * ZodType))
  (opts : AdditionalPropertyOptions) : M SchemaState Schema :=
  let* properties := mapProperties shape in
  let* required := mapRequired shape in
  let* additionalProperties := createAdditionalProperties (catchAll opts) in
  ret {| type := KSchema;
         schema := object_literal properties required (unknownKeys opts)
                     additionalProperties;
         effects :=
           flattenEffects
             (match properties with Some p => property_effects p | None => [] end
              ++ [match additionalProperties with
                  | Some ap => effects ap
                  | None => None
                  end;
                  match required with
                  | Some r => required_effects r
                  | None => None
                  end]) |}.

(** The first step of [createExtendedSchema]: the base is synthesized, for
    its effect on the registry, when it has an entry or asks for a name
    ([component ?? baseZodObject._def.openapi?.ref]); what the call returns
    is not used. *)
Definition registerBase (baseZodObject : ZodType) : M SchemaState unit :=
  let* state := get_state in
  let component := schemas state !! zid baseZodObject in
  if match component with
     | Some _ => true
     | None => truthy_string (openapi_ref baseZodObject)
     end
  then let* _ := createSchemaObject baseZodObject ["extended schema"] in
       ret tt
  else ret tt.

(** [createExtendedSchema].  Both nodes are typed [ZodObject]; on any other
    node the model raises the [TypeError] the first property read of a
    missing definition would. *)
Definition createExtendedSchema (zodObject : ZodType)
  (baseZodObject : option ZodType) : M SchemaState (option Schema) :=
  match baseZodObject with
  | None => ret None
  | Some baseZodObject =>
      match object_def zodObject, object_def baseZodObject with
      | Some ext, Some base =>
          let* _ := registerBase baseZodObject in
          let* state := get_state in
          match schemas state !! zid baseZodObject with
          | None => ret None
          | Some completeComponent =>
              match createDiffOpts (options_of base) (options_of ext) with
              | None => ret None
              | Some diffOpts =>
                  match createShapeDiff (shape base) (shape ext) with
                  | None => ret None
                  | Some diffShape =>
                      let* extendedSchema :=
                        createObjectSchemaFromShape diffShape diffOpts in
                      let* state := get_state in
                      ret (Some
                        {| type := KSchema;
                           schema :=
                             spread
                               [("allOf",
                                 JArray [JObject [("$ref",
                                   JString (createComponentSchemaRef
                                              (component_ref completeComponent)
                                              (state_componentRefPath state)))]])]
                               (schema extendedSchema);
                           effects :=
                             flattenEffects
                               [ if is_complete completeComponent
                                 then component_effects completeComponent
                                 else Some [];
                                 if is_in_progress completeComponent
                                 then Some [ComponentEffect zodObject (path state)]
                                 else Some [];
                                 effects extendedSchema ] |})
                  end
              end
          end
      | _, _ => throw (OtherError "TypeError")
      end
  end.

(** [createObjectSchema]. *)
Definition createObjectSchema (zodObject : ZodType) : M SchemaState Schema :=
  match object_def zodObject with
  | Some d =>
      let* extendedSchema := createExtendedSchema zodObject (extends d) in
      match extendedSchema with
      | Some s => ret s
      | None => createObjectSchemaFromShape (shape d) (options_of d)
      end
  | None => throw (OtherError "TypeError")
  end.

(** *** The calls on the children, as a relation *)

(** [children_run shape st children st']: from [st], the fields of [shape]
    that are no sentinels are synthesized in order, each from the state the
    one before left; [children] are the fragments returned, [st'] is the
    state after the last call. *)
Inductive children_run
  : list (string * ZodType) -> SchemaState -> list (string * Schema)
    -> SchemaState -> Prop :=
| children_nil st : children_run [] st [] st
| children_skip key z rest st children st' :
    is_sentinel z = true ->
    children_run rest st children st' ->
    children_run ((key, z) :: rest) st children st'
| children_call key z rest st s st1 children st' :
    is_sentinel z = false ->
    createSchemaObject z ["property: " +:+ key] st = (Return s, st1) ->
    children_run rest st1 children st' ->
    children_run ((key, z) :: rest) st ((key, s) :: children) st'.

(** [catchall_run c st ap st']: the catch-all [c] is synthesized from [st]
    unless it is the never sentinel. *)
Definition catchall_run (c : ZodType) (st : SchemaState) (ap : option Schema)
  (st' : SchemaState) : Prop :=
  if isZodType c ZodNever
  then ap = None /\ st' = st
  else exists s, ap = Some s
         /\ createSchemaObject c ["additional properties"] st = (Return s, st').

(** [children_fail shape st e st']: from [st], the fields of [shape] that
    are no sentinels are synthesized in order until the call on one of them
    throws [e], leaving the state [st']. *)
Inductive children_fail
  : list (string * ZodType) -> SchemaState -> Error -> SchemaState -> Prop :=
| children_fail_here key z rest st e st' :
    is_sentinel z = false ->
    createSchemaObject z ["property: " +:+ key] st = (Throw e, st') ->
    children_fail ((key, z) :: rest) st e st'
| children_fail_skip key z rest st e st' :
    is_sentinel z = true ->
    children_fail rest st e st' ->
    children_fail ((key, z) :: rest) st e st'
| children_fail_later key z rest st s st1 e st' :
    is_sentinel z = false ->
    createSchemaObject z ["property: " +:+ key] st = (Return s, st1) ->
    children_fail rest st1 e st' ->
    children_fail ((key, z) :: rest) st e st'.

End Composer.

End ObjectParser.

(** ** The dispatcher entry, modelled from the spec

    [createSchemaObject] is imported by [object.ts] from [../../schema]; that
    version of the file is not among the sources.  The definitions of this
    module follow the spec (sections 2, 4.1 and 4.4) and serve to run the
    object composer on concrete nodes. *)

Module Dispatcher.
Import ObjectParser.

(** Modelled from the spec: a leaf generator copies the primitive's type
    name into a fragment (the tests of the object composer show
    [{ type: 'string' }], [{ type: 'number' }], [{ type: 'boolean' }]). *)
Definition leaf_fragment (t : string) : Schema :=
  {| type := KSchema; schema := [("type", JString t)]; effects := None |}.

(** Modelled from the spec: a reference fragment for a registered name. *)
Definition ref_fragment (name : string) (st : SchemaState)
  (e : option (list Effect)) : Schema :=
  {| type := KRef;
     schema := [("$ref", JString (createComponentSchemaRef name
                                    (state_componentRefPath st)))];
     effects := e |}.

(** Modelled from the spec: the name is bound to another node identity. *)
Definition bound_elsewhere (name : string) (i : positive)
  (m : gmap positive SchemaComponent) : bool :=
  map_fold (fun k c acc =>
              acc || (String.eqb (component_ref c) name && negb (Pos.eqb k i)))
           false m.

Section Knot.

Variable self : ZodType -> list string -> M SchemaState Schema.

(** Modelled from the spec: the type dispatcher (section 4.1), whose file
      is not among the sources.  Only the variants
    the tests of the object composer build are given a generator here; a
    variant whose generator lives in a file that is not among the sources
    raises [OtherError]; a variant with no generator returns the fragment
    supplied by hand, or fails. *)
Definition dispatch (z : ZodType) : M SchemaState Schema :=
  match _def z with
  | ZodStringDef => ret (leaf_fragment "string")
  | ZodNumberDef => ret (leaf_fragment "number")
  | ZodBooleanDef => ret (leaf_fragment "boolean")
  | ZodNullDef => ret (leaf_fragment "null")
  | ZodObjectDef _ _ _ _ => createObjectSchema self z
  | ZodOptionalDef inner => self inner ["optional"]
  | ZodDefaultDef inner v =>
      let* s := self inner ["default"] in
      ret {| type := KSchema;
             schema := spread (schema s) [("default", v)];
             effects := effects s |}
  | ZodNeverDef | ZodUndefinedDef | ZodAnyDef | ZodUnknownDef
  | ZodEffectsDef _ transform =>
      match openapi z with
      | Some m =>
          if has_key "type" (manual m)
          then ret {| type := KSchema; schema := manual m; effects := None |}
          else throw (UnknownSchema z)
      | None => throw (UnknownSchema z)
      end
  | _ => throw (OtherError "generator outside the model")
  end.

(** Modelled from the spec: lookup-or-create in the registry (section 4.4),
    whose file is not among the sources. *)
Definition lookupOrCreate (z : ZodType) : M SchemaState Schema :=
  fun st =>
    match schemas st !! zid z with
    | Some (Complete name _ e) => (Return (ref_fragment name st e), st)
    | Some (InProgress name) =>
        (Return (ref_fragment name st (Some [ComponentEffect z (path st)])), st)
    | None =>
        match openapi_ref z with
        | Some name =>
            if String.eqb name "" then dispatch z st
            else if bound_elsewhere name (zid z) (schemas st)
            then (Throw (AlreadyRegistered name), st)
            else
              match dispatch z (set_schemas (<[zid z := InProgress name]> (schemas st)) st) with
              | (Return s, st1) =>
                  (Return (ref_fragment name st1 (effects s)),
                   set_schemas (<[zid z := Complete name (schema s) (effects s)]>
                                  (schemas st1)) st1)
              | (Throw e, st1) => (Throw e, st1)
              end
        | None => dispatch z st
        end
    end.

(** Modelled from the spec: the entry of a nested call (section 2).  The call
    extends the path by its segments; the caller's path, mode and options
    are restored on return, the registry is shared. *)
Definition enter (z : ZodType) (subpath : list string) : M SchemaState Schema :=
  fun previous =>
    let '(r, st) := lookupOrCreate z (set_path (path previous ++ subpath) previous) in
    (r, set_schemas (schemas st) previous).

End Knot.

(** Modelled from the spec: [createSchemaObject], with a recursion budget. *)
Fixpoint createSchemaObject (fuel : nat) (zodSchema : ZodType)
  (subpath : list string) : M SchemaState Schema :=
  match fuel with
  | O => throw OutOfFuel
  | S fuel' => enter (createSchemaObject fuel') zodSchema subpath
  end.

End Dispatcher.

(** ** Nodes and states of [object.test.ts] *)

Module Fixtures.
Import ObjectParser.

(** [createOutputState()] and [createInputState()]. *)
Definition createOutputState : SchemaState :=
  {| schemas := ∅; state_type := output; path := []; documentOptions := None |}.
Definition createInputState : SchemaState :=
  {| schemas := ∅; state_type := input; path := []; documentOptions := None |}.

(** [z.object(shape)]: unknown keys are stripped, the catch-all is a fresh
    [ZodNever]. *)
Definition z_object (i : positive) (m : option ZodOpenApiMetadata)
  (shape : list (string * ZodType)) (ext : option ZodType) : ZodType :=
  MkZod i m (ZodObjectDef shape strip (MkZod (i + 1000) None ZodNeverDef) ext).

Definition z_string (i : positive) : ZodType := MkZod i None ZodStringDef.
Definition z_number (i : positive) : ZodType := MkZod i None ZodNumberDef.
Definition z_boolean (i : positive) : ZodType := MkZod i None ZodBooleanDef.
Definition z_never (i : positive) : ZodType := MkZod i None ZodNeverDef.
Definition z_undefined (i : positive) : ZodType := MkZod i None ZodUndefinedDef.
Definition z_optional (i : positive) (inner : ZodType) : ZodType :=
  MkZod i None (ZodOptionalDef inner).
Definition z_default (i : positive) (inner : ZodType) (v : json) : ZodType :=
  MkZod i None (ZodDefaultDef inner v).

(** [.openapi({ ref })]. *)
Definition with_ref (name : string) : option ZodOpenApiMetadata :=
  Some {| ref := Some name; manual := [] |}.

(** 'creates a simple object with required and optionals'. *)
Definition simple : ZodType :=
  z_object 1 None [("a", z_string 2); ("b", z_optional 3 (z_string 4))] None.

(** 'creates a object with strict'. *)
Definition strict_object : ZodType :=
  MkZod 1 None (ZodObjectDef [("a", z_string 2)] strict (z_never 3) None).

(** 'supports catchall'. *)
Definition with_catchall : ZodType :=
  MkZod 1 None (ZodObjectDef [("a", z_string 2)] strip (z_boolean 3) None).

(** 'considers ZodDefault in an input state as an effect'. *)
Definition default_a : ZodType := z_default 2 (z_string 3) (JString "a").
Definition with_default : ZodType := z_object 1 None [("a", default_a)] None.

(** 'creates an extended object': [object1.extend({ b: z.string() })] keeps
    the nodes of the fields of [object1] and records [object1] as its base. *)
Definition field_a : ZodType := z_string 11.
Definition object1 : ZodType := z_object 10 (with_ref "obj1") [("a", field_a)] None.
Definition object2 : ZodType :=
  z_object 20 None [("a", field_a); ("b", z_string 21)] (Some object1).
Definition extended : ZodType :=
  z_object 30 None [("obj1", object1); ("obj2", object2)] None.

(** 'does not create an allOf schema when the extension overrides a field'. *)
Definition object2_override : ZodType :=
  z_object 20 None [("a", z_number 22)] (Some object1).

(** [object1.extend({ constructor: z.string() })]: the added field is named
    like a member of [Object.prototype]. *)
Definition object2_constructor : ZodType :=
  z_object 20 None [("a", field_a); ("constructor", z_string 21)] (Some object1).
Definition overriding : ZodType :=
  z_object 30 None [("obj1", object1); ("obj2", object2_override)] None.

(** 'does not create an allOf schema when the base object has a catchall'. *)
Definition object1_catchall : ZodType :=
  MkZod 10 (with_ref "obj1")
    (ZodObjectDef [("a", field_a)] strip (z_boolean 12) None).
Definition object2_of_catchall : ZodType :=
  MkZod 20 None
    (ZodObjectDef [("a", field_a); ("b", z_number 21)] strip (z_boolean 12)
       (Some object1_catchall)).
Definition base_with_catchall : ZodType :=
  z_object 30 None [("obj1", object1_catchall); ("obj2", object2_of_catchall)] None.

(** 'creates an allOf schema when catchall is on the extended object'. *)
Definition object2_catchall : ZodType :=
  MkZod 20 None
    (ZodObjectDef [("a", field_a); ("b", z_number 21)] strip (z_boolean 23)
       (Some object1)).
Definition extended_with_catchall : ZodType :=
  z_object 30 None [("obj1", object1); ("obj2", object2_catchall)] None.

(** 'ignores ZodNever and ZodUndefined schemas'. *)
Definition with_sentinels : ZodType :=
  z_object 1 None [("a", z_string 2); ("b", z_undefined 3); ("c", z_never 4)] None.

(** [z.string().transform(...).openapi({ type: 'string', format: 'date' })]:
    a node with no generator in [index.ts] and a fragment supplied by hand. *)
Definition date_fragment : SchemaObject :=
  [("type", JString "string"); ("format", JString "date")].
Definition date_transform : ZodType :=
  MkZod 5 (Some {| ref := None; manual := date_fragment |})
    (ZodEffectsDef (z_string 6) transform).

(** Generators and a metadata wrapper for runs of [index.ts] that reach none
    of them, and one that answers every node with a string fragment. *)
Definition unused_leaf (g : Index.LeafGenerator) (z : ZodType)
  : Result SchemaObject := Throw (OtherError "not reached").
Definition unused_composite (g : Index.CompositeGenerator) (z : ZodType)
  : M Index.Components SchemaObject := throw (OtherError "not reached").
Definition unused_metadata (z : ZodType) : M Index.Components SchemaObject :=
  throw (OtherError "not reached").
Definition string_metadata (z : ZodType) : M Index.Components SchemaObject :=
  ret [("type", JString "string")].

Definition no_components : Index.Components := {| Index.schema := ∅ |}.

(** [components.schema] after [obj1] was registered for the node [z_string 2]. *)
Definition obj1_registered : Index.Components :=
  {| Index.schema :=
       <["obj1" := {| Index.schemaObject := [("type", JString "string")];
                      Index.zodSchema := z_string 2 |}]> ∅ |}.

(** The modelled dispatcher with a budget that suffices for these nodes. *)
Definition dispatcher : ZodType -> list string -> M SchemaState Schema :=
  Dispatcher.createSchemaObject 8.

(** The object composer on a node, with the modelled dispatcher. *)
Definition run (z : ZodType) (st : SchemaState) : Result Schema * SchemaState :=
  createObjectSchema dispatcher z st.

(** A fragment without effects. *)
Definition fragment (o : SchemaObject) : Schema :=
  {| type := KSchema; schema := o; effects := None |}.

Definition string_schema : json := JObject [("type", JString "string")].
Definition number_schema : json := JObject [("type", JString "number")].
Definition boolean_schema : json := JObject [("type", JString "boolean")].
Definition obj1_reference : json :=
  JObject [("$ref", JString "#/components/schemas/obj1")].

(** The values the tests expect. *)
Definition simple_expected : Schema :=
  fragment [("type", JString "object");
            ("properties", JObject [("a", string_schema); ("b", string_schema)]);
            ("required", JArray [JString "a"])].

Definition strict_expected : Schema :=
  fragment [("type", JString "object");
            ("properties", JObject [("a", string_schema)]);
            ("required", JArray [JString "a"]);
            ("additionalProperties", JBool false)].

Definition catchall_expected : Schema :=
  fragment [("type", JString "object");
            ("properties", JObject [("a", string_schema)]);
            ("required", JArray [JString "a"]);
            ("additionalProperties", boolean_schema)].

Definition default_properties : json :=
  JObject [("a", JObject [("type", JString "string"); ("default", JString "a")])].

Definition default_input_expected : Schema :=
  {| type := KSchema;
     schema := [("type", JString "object"); ("properties", default_properties)];
     effects := Some [SchemaEffect input default_a ["property: a"]] |}.

Definition default_output_expected : Schema :=
  {| type := KSchema;
     schema := [("type", JString "object"); ("properties", default_properties);
                ("required", JArray [JString "a"])];
     effects := Some [SchemaEffect output default_a ["property: a"]] |}.

Definition object1_fragment : SchemaObject :=
  [("type", JString "object");
   ("properties", JObject [("a", string_schema)]);
   ("required", JArray [JString "a"])].

Definition object2_fragment : SchemaObject :=
  [("allOf", JArray [obj1_reference]);
   ("type", JString "object");
   ("properties", JObject [("b", string_schema)]);
   ("required", JArray [JString "b"])].

Definition extended_expected : Schema :=
  fragment [("type", JString "object");
            ("properties",
             JObject [("obj1", obj1_reference); ("obj2", JObject object2_fragment)]);
            ("required", JArray [JString "obj1"; JString "obj2"])].

Definition override_fragment : SchemaObject :=
  [("type", JString "object");
   ("properties", JObject [("a", number_schema)]);
   ("required", JArray [JString "a"])].

Definition constructor_fragment : SchemaObject :=
  [("type", JString "object");
   ("properties", JObject [("a", string_schema); ("constructor", string_schema)]);
   ("required", JArray [JString "a"; JString "constructor"])].

Definition overriding_expected : Schema :=
  fragment [("type", JString "object");
            ("properties",
             JObject [("obj1", obj1_reference); ("obj2", JObject override_fragment)]);
            ("required", JArray [JString "obj1"; JString "obj2"])].

Definition base_with_catchall_expected : Schema :=
  fragment [("type", JString "object");
            ("properties",
             JObject [("obj1", obj1_reference);
                      ("obj2",
                       JObject [("type", JString "object");
                                ("properties",
                                 JObject [("a", string_schema); ("b", number_schema)]);
                                ("required", JArray [JString "a"; JString "b"]);
                                ("additionalProperties", boolean_schema)])]);
            ("required", JArray [JString "obj1"; JString "obj2"])].

Definition extended_with_catchall_expected : Schema :=
  fragment [("type", JString "object");
            ("properties",
             JObject [("obj1", obj1_reference);
                      ("obj2",
                       JObject [("allOf", JArray [obj1_reference]);
                                ("type", JString "object");
                                ("properties", JObject [("b", number_schema)]);
                                ("required", JArray [JString "b"]);
                                ("additionalProperties", boolean_schema)])]);
            ("required", JArray [JString "obj1"; JString "obj2"])].

Definition sentinels_expected : Schema :=
  fragment [("type", JString "object");
            ("properties", JObject [("a", string_schema)]);
            ("required", JArray [JString "a"])].

(** The fragments of two shapes no test covers: [{ b: z.undefined(),
    c: z.never() }], and [{ a: z.string() }] under [strict] with a boolean
    catch-all. *)
Definition only_sentinels_fragment : Schema :=
  fragment [("type", JString "object"); ("properties", JObject [])].

Definition strict_with_catchall_fragment : Schema :=
  fragment [("type", JString "object");
            ("properties", JObject [("a", string_schema)]);
            ("required", JArray [JString "a"]);
            ("additionalProperties", boolean_schema)].

(** The definitions of the two objects of the extension tests. *)
Definition object1_def : ZodObjectDefT :=
  {| shape := [("a", field_a)]; def_unknownKeys := strip;
     catchall := z_never 1010; extends := None |}.
Definition object2_def : ZodObjectDefT :=
  {| shape := [("a", field_a); ("b", z_string 21)]; def_unknownKeys := strip;
     catchall := z_never 1020; extends := Some object1 |}.
Definition object2_override_def : ZodObjectDefT :=
  {| shape := [("a", z_number 22)]; def_unknownKeys := strip;
     catchall := z_never 1020; extends := Some object1 |}.
Definition object2_constructor_def : ZodObjectDefT :=
  {| shape := [("a", field_a); ("constructor", z_string 21)];
     def_unknownKeys := strip;
     catchall := z_never 1020; extends := Some object1 |}.

(** The state once [object1] is registered, and a state in which its
    registration is under way, at some path. *)
Definition obj1_complete : SchemaState :=
  {| schemas := <[10%positive := Complete "obj1" object1_fragment None]> ∅;
     state_type := output; path := []; documentOptions := None |}.
Definition obj1_in_progress : SchemaState :=
  {| schemas := <[10%positive := InProgress "obj1"]> ∅;
     state_type := output; path := ["property: next"]; documentOptions := None |}.

(** What the dispatcher returns for [object1] while it is in progress, when
    the call comes from the first step of an extension: a reference, and a
    component effect for the base at the path of that call. *)
Definition base_call_effect : Effect :=
  ComponentEffect object1 ["property: next"; "extended schema"].
Definition base_call_fragment : Schema :=
  {| type := KRef;
     schema := [("$ref", JString "#/components/schemas/obj1")];
     effects := Some [base_call_effect] |}.

(** The fragment of [object2] while [object1] is in progress. *)
Definition object2_in_progress_fragment : Schema :=
  {| type := KSchema; schema := object2_fragment;
     effects := Some [ComponentEffect object2 ["property: next"]] |}.

(** A base with a default field, registered while its extension is
    synthesized in input mode: the base hands its effect to the extension. *)
Definition base_with_default : ZodType :=
  z_object 10 (with_ref "obj1") [("a", default_a)] None.
Definition extension_of_default : ZodType :=
  z_object 20 None [("a", default_a); ("b", z_string 21)] (Some base_with_default).
Definition extension_of_default_def : ZodObjectDefT :=
  {| shape := [("a", default_a); ("b", z_string 21)]; def_unknownKeys := strip;
     catchall := z_never 1020; extends := Some base_with_default |}.
Definition base_default_effect : Effect :=
  SchemaEffect input default_a ["extended schema"; "property: a"].
Definition extension_of_default_fragment : Schema :=
  {| type := KSchema; schema := object2_fragment;
     effects := Some [base_default_effect] |}.
Definition base_with_default_complete : SchemaState :=
  {| schemas :=
       <[10%positive :=
           Complete "obj1"
             [("type", JString "object"); ("properties", default_properties)]
             (Some [base_default_effect])]> ∅;
     state_type := input; path := []; documentOptions := None |}.

End Fixtures.

(** * Properties *)

(** ** Objects as property lists *)

Lemma obj_get_set_eq {V} (k : string) (v : V) (o : list (string * V)) :
  obj_get k (obj_set k v o) = Some v.
Proof.
  induction o as [|[k' v'] o IH]; simpl.
  - by rewrite String.eqb_refl.
  - destruct (String.eqb k k') eqn:E; simpl; rewrite E; [done | exact IH].
Qed.

Lemma obj_get_set_ne {V} (k k' : string) (v : V) (o : list (string * V)) :
  k <> k' -> obj_get k (obj_set k' v o) = obj_get k o.
Proof.
  intros Hne. induction o as [|[k0 v0] o IH]; simpl.
  - apply String.eqb_neq in Hne. by rewrite Hne.
  - destruct (String.eqb k' k0) eqn:E; simpl.
    + apply String.eqb_eq in E. subst k0.
      apply String.eqb_neq in Hne. by rewrite Hne.
    + destruct (String.eqb k k0); [done | exact IH].
Qed.

Lemma keys_obj_set {V} (k : string) (v : V) (o : list (string * V)) :
  forall k', In k' (keys (obj_set k v o)) <-> k' = k \/ In k' (keys o).
Proof.
  intros k'. unfold keys. induction o as [|[k0 v0] o IH]; simpl.
  - intuition congruence.
  - destruct (String.eqb_spec k k0) as [->|Hne]; simpl.
    + intuition congruence.
    + rewrite IH. intuition congruence.
Qed.

Lemma has_key_keys {V} (k : string) (o : list (string * V)) :
  has_key k o = true <-> In k (keys o).
Proof.
  unfold has_key, keys. induction o as [|[k0 v0] o IH]; simpl.
  - split; [discriminate | tauto].
  - destruct (String.eqb_spec k k0) as [->|Hne].
    + split; [by left | done].
    + rewrite IH. split; [by right | intros [Heq|Hin]; [congruence | done]].
Qed.

(** An assignment adds its key unless the key is [__proto__]. *)
Lemma keys_prop_set {V} (k : string) (v : V) (o : list (string * V)) :
  forall k', In k' (keys (prop_set k v o))
             <-> (k' = k /\ k <> "__proto__") \/ In k' (keys o).
Proof.
  intros k'. unfold prop_set. destruct (has_key k o) eqn:Hown.
  - apply has_key_keys in Hown. rewrite keys_obj_set. split.
    + intros [->|Hin]; by right.
    + intros [[-> _]|Hin]; [by left | by right].
  - destruct (String.eqb_spec k "__proto__") as [->|Hne].
    + split; [by right | intros [[_ Hne]|Hin]; done].
    + rewrite keys_obj_set. split.
      * intros [->|Hin]; [by left | by right].
      * intros [[-> _]|Hin]; [by left | by right].
Qed.

(** On a key that is not [__proto__] an assignment defines the property. *)
Lemma prop_set_plain {V} (k : string) (v : V) (o : list (string * V)) :
  k <> "__proto__" -> prop_set k v o = obj_set k v o.
Proof.
  intros Hne. unfold prop_set. destruct (has_key k o); [done|].
  apply String.eqb_neq in Hne. by rewrite Hne.
Qed.

Lemma NoDup_keys_unique {V} (k : string) (v w : V) (o : list (string * V)) :
  List.NoDup (keys o) -> In (k, v) o -> In (k, w) o -> v = w.
Proof.
  unfold keys. induction o as [|[k0 v0] o IH]; simpl; [tauto|].
  intros Hnd. inversion Hnd as [|? ? Hnotin Hnd']; subst.
  intros [H1|H1] [H2|H2].
  - congruence.
  - inversion H1; subst. exfalso. apply Hnotin.
    change (In (fst (k, w)) (map fst o)). by apply in_map.
  - inversion H2; subst. exfalso. apply Hnotin.
    change (In (fst (k, v)) (map fst o)). by apply in_map.
  - by apply IH.
Qed.

(** ** The dispatcher and the registry of [index.ts] *)

Section IndexFacts.
Import Index.

Variable leaf : LeafGenerator -> ZodType -> Result SchemaObject.
Variable composite : CompositeGenerator -> ZodType -> M Components SchemaObject.

(** The cascade routes every variant to the generator of the table. *)
Lemma createSchema_generator_of (z : ZodType) :
  createSchema leaf composite z
  = match generator_of z with
    | Some a => run_arm leaf composite a z
    | None =>
        if negb (has_manual_type z) then throw (UnknownSchema z) else ret []
    end.
Proof.
  destruct z as [i m d].
  destruct d as [| | | | | | | | | | | | | | | | | | | | |inner e];
    try reflexivity.
  destruct e; reflexivity.
Qed.

End IndexFacts.

(** C8, as the code has it.  A node whose variant has no generator makes
    [createSchema] throw its unknown-schema error exactly when the node has
    no manual type, and with a manual type the fragment returned is the
    empty object, the registry left as it was.  A node whose variant has a
    generator gets the outcome of that generator, an error of the generator
    included. *)
Theorem createSchema_unknown_schema
  (leaf : Index.LeafGenerator -> ZodType -> Result SchemaObject)
  (composite : Index.CompositeGenerator -> ZodType -> M Index.Components SchemaObject)
  (z : ZodType) (c : Index.Components) :
  (Index.generator_of z = None ->
     (Index.createSchema leaf composite z c = (Throw (UnknownSchema z), c)
      <-> Index.has_manual_type z = false)
     /\ (Index.has_manual_type z = true ->
         Index.createSchema leaf composite z c = (Return [], c)))
  /\ (forall a, Index.generator_of z = Some a ->
       Index.createSchema leaf composite z c
       = Index.run_arm leaf composite a z c).
Proof.
  rewrite createSchema_generator_of. split.
  - intros ->. unfold ret, throw. destruct (Index.has_manual_type z); simpl.
    + split; [split; intros; congruence | done].
    + split; [split; done | congruence].
  - by intros a ->.
Qed.

(** C8, the claim as stated fails: a transform with the manual fragment
    [{ type: 'string', format: 'date' }] matches no generator, and
    [createSchema] returns the empty object, not that fragment. *)
Lemma createSchema_manual_not_verbatim :
  Index.generator_of Fixtures.date_transform = None
  /\ Index.has_manual_type Fixtures.date_transform = true
  /\ Index.createSchema Fixtures.unused_leaf Fixtures.unused_composite
       Fixtures.date_transform Fixtures.no_components
     = (Return [], Fixtures.no_components)
  /\ Index.createSchema Fixtures.unused_leaf Fixtures.unused_composite
       Fixtures.date_transform Fixtures.no_components
     <> (Return Fixtures.date_fragment, Fixtures.no_components).
Proof.
  split; [reflexivity|]. split; [reflexivity|].
  split; [reflexivity | discriminate].
Qed.

(** *** Reads and writes of the registry *)

Lemma registry_get_Own (schemaRef : string)
  (registry : gmap string Index.SchemaComponent)
  (component : Index.SchemaComponent) :
  registry !! schemaRef = Some component ->
  Index.registry_get schemaRef registry = Own component.
Proof. unfold Index.registry_get. by intros ->. Qed.

Lemma prototype_member_proto (k : string) :
  is_prototype_member k = false -> k <> "__proto__".
Proof. by intros H ->. Qed.

Lemma registry_set_plain (schemaRef : string) (entry : Index.SchemaComponent)
  (registry : gmap string Index.SchemaComponent) :
  is_prototype_member schemaRef = false ->
  Index.registry_set schemaRef entry registry = <[schemaRef := entry]> registry.
Proof.
  intros H. unfold Index.registry_set.
  destruct (registry !! schemaRef); [done|].
  apply prototype_member_proto, String.eqb_neq in H. by rewrite H.
Qed.

(** The three cases of the read at the head of [createRegisteredSchema]. *)
Lemma registry_get_cases (schemaRef : string)
  (registry : gmap string Index.SchemaComponent) :
  (exists component, registry !! schemaRef = Some component
                     /\ Index.registry_get schemaRef registry = Own component)
  \/ (registry !! schemaRef = None /\ is_prototype_member schemaRef = true
      /\ Index.registry_get schemaRef registry = Inherited)
  \/ (registry !! schemaRef = None /\ is_prototype_member schemaRef = false
      /\ Index.registry_get schemaRef registry = Undefined).
Proof.
  unfold Index.registry_get. destruct (registry !! schemaRef) as [component|].
  - left. by exists component.
  - destruct (is_prototype_member schemaRef); [right; left | right; right]; done.
Qed.

(** C6.  A name bound to another node identity: [createRegisteredSchema]
    throws the already-registered error, whatever the generator, and the
    registry, the entry of the name included, is what it was. *)
Theorem duplicate_ref_throws
  (gen : ZodType -> M Index.Components SchemaObject)
  (z : ZodType) (schemaRef : string) (components : Index.Components)
  (component : Index.SchemaComponent) :
  Index.schema components !! schemaRef = Some component ->
  zid (Index.zodSchema component) <> zid z ->
  Index.createRegisteredSchema gen z schemaRef components
    = (Throw (AlreadyRegistered schemaRef), components)
  /\ Index.schema
       (snd (Index.createRegisteredSchema gen z schemaRef components))
       !! schemaRef = Some component.
Proof.
  intros Hget Hne.
  assert (Index.createRegisteredSchema gen z schemaRef components
          = (Throw (AlreadyRegistered schemaRef), components)) as E.
  { unfold Index.createRegisteredSchema.
    rewrite (registry_get_Own _ _ _ Hget).
    unfold same_node. apply Pos.eqb_neq in Hne. by rewrite Hne. }
  split; [exact E|]. by rewrite E.
Qed.

(** C7.  After a registration that succeeded, registering the same node
    under the same name again returns the same reference and leaves the
    registry as it is, whatever generator the second call is given: the
    generator is not run. *)
Theorem registration_idempotent
  (gen gen' : ZodType -> M Index.Components SchemaObject)
  (z : ZodType) (schemaRef : string) (c c1 : Index.Components)
  (r : SchemaObject) :
  Index.createRegisteredSchema gen z schemaRef c = (Return r, c1) ->
  Index.createRegisteredSchema gen' z schemaRef c1 = (Return r, c1)
  /\ r = [("$ref", JString (Index.createComponentSchemaRef schemaRef))].
Proof.
  unfold Index.createRegisteredSchema. intros H.
  destruct (registry_get_cases schemaRef (Index.schema c))
    as [(component & Hget & Hread)|[(Hget & Hm & Hread)|(Hget & Hm & Hread)]];
    rewrite Hread in H.
  - destruct (same_node (Index.zodSchema component) z) eqn:Hsame;
      simpl in H; [|congruence].
    injection H as <- <-. by rewrite Hread, Hsame.
  - congruence.
  - destruct (gen z c) as [[s|e] c'] eqn:Hgen; [|congruence].
    destruct (has_key "$ref" s); [congruence|].
    injection H as <- <-. simpl. rewrite (registry_set_plain _ _ _ Hm).
    rewrite (registry_get_Own _ _ _ (lookup_insert_eq _ _ _)). simpl.
    unfold same_node. by rewrite Pos.eqb_refl.
Qed.

(** C8 at the transform of the fixtures, which carries a manual type. *)
Lemma createSchema_unknown_schema_witness :
  Index.createSchema Fixtures.unused_leaf Fixtures.unused_composite
    Fixtures.date_transform Fixtures.no_components
  = (Return [], Fixtures.no_components).
Proof.
  apply (createSchema_unknown_schema Fixtures.unused_leaf
           Fixtures.unused_composite Fixtures.date_transform
           Fixtures.no_components); reflexivity.
Defined.

(** C6 at a registry that binds [obj1] to the node 2: the node 7 is refused,
    by a call whose generator would fail if it were run. *)
Lemma duplicate_ref_throws_witness :
  Index.createRegisteredSchema Fixtures.unused_metadata (Fixtures.z_string 7)
    "obj1" Fixtures.obj1_registered
    = (Throw (AlreadyRegistered "obj1"), Fixtures.obj1_registered)
  /\ Index.schema
       (snd (Index.createRegisteredSchema Fixtures.unused_metadata
               (Fixtures.z_string 7) "obj1" Fixtures.obj1_registered))
       !! "obj1"
     = Some {| Index.schemaObject := [("type", JString "string")];
               Index.zodSchema := Fixtures.z_string 2 |}.
Proof.
  apply (duplicate_ref_throws Fixtures.unused_metadata (Fixtures.z_string 7)
           "obj1" Fixtures.obj1_registered).
  - apply lookup_insert_eq.
  - simpl. discriminate.
Defined.

(** C7 at the empty registry: the node 2 is registered as [obj1] with a
    generator that answers, then again with one that would fail. *)
Lemma registration_idempotent_witness :
  Index.createRegisteredSchema Fixtures.unused_metadata (Fixtures.z_string 2)
    "obj1" Fixtures.obj1_registered
    = (Return [("$ref", JString "#/components/schemas/obj1")],
       Fixtures.obj1_registered)
  /\ [("$ref", JString "#/components/schemas/obj1")]
     = [("$ref", JString (Index.createComponentSchemaRef "obj1"))].
Proof.
  apply (registration_idempotent Fixtures.string_metadata
           Fixtures.unused_metadata (Fixtures.z_string 2) "obj1"
           Fixtures.no_components Fixtures.obj1_registered).
  reflexivity.
Defined.

(** ** The object composer of [object.ts] *)

(** Case analysis on a computation that is known to return. *)
Lemma bind_Return {S A B} (c : M S A) (k : A -> M S B) (s s' : S) (b : B) :
  bind c k s = (Return b, s') ->
  exists a s1, c s = (Return a, s1) /\ k a s1 = (Return b, s').
Proof.
  unfold bind. destruct (c s) as [[a|e] s1]; [eauto | congruence].
Qed.

Ltac bind_inv H :=
  let a := fresh "a" in
  let s1 := fresh "st" in
  let H1 := fresh "Hrun" in
  apply bind_Return in H; destruct H as (a & s1 & H1 & H).

Section LiteralFacts.
Import ObjectParser.

Variables (p : option PropertyMap) (req : option RequiredResult)
          (uk : option UnknownKeysParam) (ap : option Schema).

Ltac literal_cases :=
  unfold object_literal, is_strict;
  destruct p as [[ps pe]|], req as [[[|k0 r] e]|], uk as [[| |]|], ap as [[t o e']|];
  reflexivity.

Lemma object_literal_properties :
  obj_get "properties" (object_literal p req uk ap)
  = match p with
    | Some pm => Some (JObject (properties pm))
    | None => None
    end.
Proof. literal_cases. Qed.

Lemma object_literal_required :
  obj_get "required" (object_literal p req uk ap)
  = match req with
    | Some r =>
        if Nat.eqb (length (required r)) 0 then None
        else Some (JArray (map JString (required r)))
    | None => None
    end.
Proof. literal_cases. Qed.

Lemma object_literal_additionalProperties :
  obj_get "additionalProperties" (object_literal p req uk ap)
  = match ap with
    | Some s => Some (JObject (schema s))
    | None => if is_strict uk then Some (JBool false) else None
    end.
Proof. literal_cases. Qed.

Lemma object_literal_allOf :
  obj_get "allOf" (object_literal p req uk ap) = None.
Proof. literal_cases. Qed.

(** [{ allOf: x, ...literal }]: [allOf] stays, the other keys are the
    literal's. *)
Lemma allOf_spread_literal (x : json) (k : string) :
  obj_get k (spread [("allOf", x)] (object_literal p req uk ap))
  = if String.eqb k "allOf" then Some x
    else obj_get k (object_literal p req uk ap).
Proof. literal_cases. Qed.

End LiteralFacts.

Section DiffFacts.
Import ObjectParser.

Lemma createDiffOpts_Some (b e o : AdditionalPropertyOptions) :
  createDiffOpts b e = Some o
  <-> unknownKeys b <> Some strict
      /\ typeName (catchAll b) = ZodNever
      /\ o = e.
Proof.
  unfold createDiffOpts, is_strict, isZodType. destruct e as [eu ec]. simpl.
  destruct (unknownKeys b) as [[| |]|], (typeName (catchAll b)); simpl;
    split; try congruence; try (intros [= <-]; repeat split; congruence);
    intros (? & ? & ?); congruence.
Qed.

(** An entry of the extension at which [createShapeDiff] returns [null]:
    the base binds its key to another node, or the base has no such key and
    the key names a member of [Object.prototype]. *)
Definition blocks_diff (base : list (string * ZodType)) (k : string)
  (v : ZodType) : Prop :=
  (exists bv, obj_get k base = Some bv /\ zid v <> zid bv)
  \/ (obj_get k base = None /\ is_prototype_member k = true).

(** The loop of [createShapeDiff] gives up exactly at such an entry. *)
Lemma createShapeDiff_loop_None (base entries : list (string * ZodType)) :
  forall acc,
    createShapeDiff_loop base entries acc = None
    <-> exists k v, In (k, v) entries /\ blocks_diff base k v.
Proof.
  unfold blocks_diff.
  induction entries as [|[key val] rest IH]; intros acc; simpl.
  - split; [congruence | intros (k & v & [] & _)].
  - unfold prop_get. destruct (obj_get key base) as [b|] eqn:Hb.
    + unfold same_node. destruct (Pos.eqb_spec (zid val) (zid b)) as [Heq|Hne].
      * rewrite IH. split.
        -- intros (k & v & Hin & Hblock). exists k, v. auto.
        -- intros (k & v & [Hin|Hin] & Hblock).
           ++ injection Hin as <- <-.
              destruct Hblock as [(bv & Hget & Hne)|[Hget _]]; congruence.
           ++ exists k, v. auto.
      * split; [|done]. intros _. exists key, val. split; [by left|].
        left. by exists b.
    + destruct (is_prototype_member key) eqn:Hm; simpl.
      * split; [|done]. intros _. exists key, val. split; [by left|].
        by right.
      * rewrite IH. split.
        -- intros (k & v & Hin & Hblock). exists k, v. auto.
        -- intros (k & v & [Hin|Hin] & Hblock).
           ++ injection Hin as <- <-.
              destruct Hblock as [(bv & Hget & Hne)|[_ Hm']]; congruence.
           ++ exists k, v. auto.
Qed.

(** [createShapeDiff] succeeds exactly when every key the extension shares
    with the base is bound to the same node in both, and no key it adds
    names a member of [Object.prototype]. *)
Lemma createShapeDiff_Some (base ext : list (string * ZodType)) :
  (exists d, createShapeDiff base ext = Some d)
  <-> (forall k v bv, In (k, v) ext -> obj_get k base = Some bv ->
                      zid v = zid bv)
      /\ added_keys_plain base ext.
Proof.
  unfold createShapeDiff, added_keys_plain. split.
  - intros [d Hd]. split.
    + intros k v bv Hin Hget.
      destruct (Pos.eq_dec (zid v) (zid bv)) as [|Hne]; [done|].
      assert (createShapeDiff_loop base ext [] = None) as HN.
      { apply createShapeDiff_loop_None. exists k, v. split; [done|].
        left. by exists bv. }
      congruence.
    + intros k v Hin Hget.
      destruct (is_prototype_member k) eqn:Hm; [|done].
      assert (createShapeDiff_loop base ext [] = None) as HN.
      { apply createShapeDiff_loop_None. exists k, v. split; [done|].
        by right. }
      congruence.
  - intros [Hall Hplain].
    destruct (createShapeDiff_loop base ext []) as [d|] eqn:Hd.
    + eauto.
    + apply createShapeDiff_loop_None in Hd
        as (k & v & Hin & [(bv & Hget & Hne)|[Hget Hm]]).
      * exfalso. apply Hne. by eapply Hall.
      * rewrite (Hplain k v Hin Hget) in Hm. discriminate.
Qed.

End DiffFacts.

Section RequiredFacts.
Import ObjectParser.

Lemma path_pop_push (x : string) (st : SchemaState) :
  path_pop (path_push x st) = st.
Proof.
  destruct st as [m t p o]. unfold path_pop, path_push, set_path. simpl.
  by rewrite removelast_last.
Qed.

Lemma flattenEffects_Some (l : list (list Effect)) :
  effect_list (flattenEffects (map Some l)) = concat l.
Proof.
  unfold flattenEffects, effect_list.
  replace (map (fun e => default [] e) (map Some l)) with l.
  - by destruct (concat l).
  - induction l as [|x l IH]; simpl; [done | by rewrite <- IH].
Qed.

Lemma flattenEffects_concat (l : list (option (list Effect))) :
  effect_list (flattenEffects l) = concat (map effect_list l).
Proof.
  unfold flattenEffects, effect_list.
  by destruct (concat (map (fun e => default [] e) l)).
Qed.

(** The [reduce] of [mapRequired] from any accumulator: the state is the
    one it started from, the keys and the effects are appended in order. *)
Lemma mapRequired_reduce (shape : list (string * ZodType)) :
  forall (acc : RequiredAcc) (st : SchemaState),
  exists acc',
    reduceM mapRequired_step shape acc st = (Return acc', st)
    /\ acc_required acc' = acc_required acc ++ required_fields st shape
    /\ concat (acc_effects acc')
       = concat (acc_effects acc) ++ required_field_effects st shape.
Proof.
  induction shape as [|[key z] shape IH]; intros acc st.
  - exists acc. unfold required_fields, required_field_effects. simpl.
    by rewrite !app_nil_r.
  - simpl. unfold bind.
    unfold mapRequired_step at 1. rewrite path_pop_push.
    unfold required_fields, required_field_effects. simpl.
    fold (at_property key st).
    set (r := isOptionalSchema z (at_property key st)).
    match goal with
    | |- context [reduceM mapRequired_step shape ?a st] =>
        destruct (IH a st) as (acc' & Hrun & Hreq & Heff)
    end.
    exists acc'. rewrite Hrun. split; [done|].
    rewrite Hreq, Heff. unfold required_fields, required_field_effects.
    destruct (optional r), (optional_effects r) as [e|]; simpl;
      rewrite ?concat_app; simpl; rewrite ?app_nil_r, <- ?app_assoc; done.
Qed.

(** [mapRequired] returns, leaves the state as it is, and lists the
    required fields and their effects. *)
Lemma mapRequired_run (shape : list (string * ZodType)) (st : SchemaState) :
  exists r,
    mapRequired shape st = (Return (Some r), st)
    /\ required r = required_fields st shape
    /\ effect_list (required_effects r) = required_field_effects st shape.
Proof.
  unfold mapRequired, bind.
  destruct (mapRequired_reduce shape {| acc_required := []; acc_effects := [] |} st)
    as (acc' & Hrun & Hreq & Heff).
  rewrite Hrun. eexists. split; [reflexivity|]. simpl. split; [done|].
  by rewrite flattenEffects_Some.
Qed.

(** When [isOptionalSchema], as modelled, answers [optional]. *)
Lemma isOptionalSchema_optional (z : ZodType) (st : SchemaState) :
  optional (isOptionalSchema z st) = true
  <-> typeName z = ZodOptional
      \/ (typeName z = ZodDefault /\ state_type st = input)
      \/ typeName z = ZodNever
      \/ typeName z = ZodUndefined.
Proof.
  unfold isOptionalSchema, isZodType.
  destruct (typeName z), (state_type st); simpl; split;
    intuition congruence.
Qed.

Lemma required_fields_In (st : SchemaState) (shape : list (string * ZodType))
  (key : string) :
  In key (required_fields st shape)
  <-> exists z, In (key, z) shape
        /\ optional (isOptionalSchema z (at_property key st)) = false.
Proof.
  unfold required_fields. rewrite in_map_iff. split.
  - intros ([k z] & <- & Hin). apply filter_In in Hin as [Hin Hopt].
    simpl in *. exists z. split; [done|]. by apply negb_true_iff.
  - intros (z & Hin & Hopt). exists (key, z). split; [done|].
    apply filter_In. split; [done|]. simpl. by rewrite Hopt.
Qed.

End RequiredFacts.

Section ComposerFacts.
Import ObjectParser.

Variable createSchemaObject : ZodType -> list string -> M SchemaState Schema.

Abbreviation mapProperties := (ObjectParser.mapProperties createSchemaObject).
Abbreviation mapProperties_step := (ObjectParser.mapProperties_step createSchemaObject).
Abbreviation createAdditionalProperties :=
  (ObjectParser.createAdditionalProperties createSchemaObject).
Abbreviation createObjectSchemaFromShape :=
  (ObjectParser.createObjectSchemaFromShape createSchemaObject).
Abbreviation children_run := (ObjectParser.children_run createSchemaObject).
Abbreviation catchall_run := (ObjectParser.catchall_run createSchemaObject).

Lemma write_properties_keys (children : list (string * Schema)) :
  forall (o : SchemaObject) (k : string),
    In k (keys (write_properties children o))
    <-> (In k (map fst children) /\ k <> "__proto__") \/ In k (keys o).
Proof.
  induction children as [|[k0 s0] children IH]; intros o k; simpl.
  - tauto.
  - rewrite IH, keys_prop_set. intuition congruence.
Qed.

(** The [reduce] of [mapProperties] from any accumulator. *)
Lemma mapProperties_reduce (shape : list (string * ZodType)) :
  forall (acc acc' : PropertyMap) (st st' : SchemaState),
    reduceM mapProperties_step shape acc st = (Return acc', st') ->
    exists children,
      children_run shape st children st'
      /\ properties acc' = write_properties children (properties acc)
      /\ property_effects acc'
         = property_effects acc ++ map (fun kc => effects (snd kc)) children.
Proof.
  induction shape as [|[key z] shape IH]; intros acc acc' st st' H.
  - injection H as <- <-. exists []. split; [constructor|].
    by rewrite app_nil_r.
  - simpl in H. bind_inv H. unfold ObjectParser.mapProperties_step in Hrun.
    destruct (isZodType z ZodNever || isZodType z ZodUndefined) eqn:Hs.
    + injection Hrun as <- <-. apply IH in H as (children & Hc & Hp & He).
      exists children. split; [|done]. by apply children_skip.
    + bind_inv Hrun. injection Hrun as <- <-.
      apply IH in H as (children & Hc & Hp & He). simpl in Hp, He.
      exists ((key, a0) :: children). split; [|split].
      * by eapply children_call.
      * exact Hp.
      * rewrite He, <- app_assoc. done.
Qed.

(** The children are the fields that are no sentinels, in order. *)
Lemma children_run_keys (shape : list (string * ZodType))
  (st st' : SchemaState) (children : list (string * Schema)) :
  children_run shape st children st' ->
  map fst children
  = map fst (List.filter (fun e => negb (is_sentinel (snd e))) shape).
Proof.
  induction 1 as [|key z rest st children st' Hs _ IH
                  |key z rest st s st1 children st' Hs Hcall _ IH]; simpl.
  - done.
  - by rewrite Hs.
  - rewrite Hs. simpl. by rewrite IH.
Qed.

(** [mapProperties] on a shape that has entries. *)
Lemma mapProperties_run (shape : list (string * ZodType))
  (st st' : SchemaState) (p : option PropertyMap) :
  mapProperties shape st = (Return p, st') ->
  exists children,
    children_run shape st children st'
    /\ match p with
       | Some pm =>
           shape <> []
           /\ properties pm = write_properties children []
           /\ property_effects pm = map (fun kc => effects (snd kc)) children
       | None => shape = []
       end.
Proof.
  unfold ObjectParser.mapProperties. intros H.
  destruct shape as [|e shape].
  - injection H as <- <-. exists []. split; [constructor | done].
  - cbn [length Nat.eqb] in H. bind_inv H. injection H as <- <-.
    apply mapProperties_reduce in Hrun as (children & Hc & Hp & He).
    exists children. split; [done|]. split; [done|]. split; done.
Qed.

Lemma createAdditionalProperties_run (c : ZodType) (st st' : SchemaState)
  (ap : option Schema) :
  createAdditionalProperties c st = (Return ap, st') ->
  catchall_run c st ap st'.
Proof.
  unfold ObjectParser.createAdditionalProperties, ObjectParser.catchall_run.
  destruct (isZodType c ZodNever); simpl; intros H.
  - by injection H as <- <-.
  - bind_inv H. injection H as <- <-. eauto.
Qed.

(** [createObjectSchemaFromShape], step by step. *)
Lemma createObjectSchemaFromShape_run (shape : list (string * ZodType))
  (opts : AdditionalPropertyOptions) (st st' : SchemaState) (r : Schema) :
  createObjectSchemaFromShape shape opts st = (Return r, st') ->
  exists p st1 req ap,
    mapProperties shape st = (Return p, st1)
    /\ mapRequired shape st1 = (Return (Some req), st1)
    /\ required req = required_fields st1 shape
    /\ effect_list (required_effects req) = required_field_effects st1 shape
    /\ catchall_run (catchAll opts) st1 ap st'
    /\ type r = KSchema
    /\ schema r = object_literal p (Some req) (unknownKeys opts) ap
    /\ effects r
       = flattenEffects
           (match p with Some pm => property_effects pm | None => [] end
            ++ [match ap with Some s => effects s | None => None end;
                required_effects req]).
Proof.
  unfold ObjectParser.createObjectSchemaFromShape. intros H.
  bind_inv H. bind_inv H. bind_inv H. injection H as <- <-.
  destruct (mapRequired_run shape st0) as (req & Hreq & Hr & He).
  rewrite Hreq in Hrun0. injection Hrun0 as <- <-.
  apply createAdditionalProperties_run in Hrun1.
  exists a, st0, req, a1. repeat (split; [done|]). done.
Qed.

End ComposerFacts.

Section ExtensionFacts.
Import ObjectParser.

Variable createSchemaObject : ZodType -> list string -> M SchemaState Schema.

Abbreviation createObjectSchemaFromShape :=
  (ObjectParser.createObjectSchemaFromShape createSchemaObject).
Abbreviation registerBase := (ObjectParser.registerBase createSchemaObject).
Abbreviation createExtendedSchema :=
  (ObjectParser.createExtendedSchema createSchemaObject).
Abbreviation createObjectSchema :=
  (ObjectParser.createObjectSchema createSchemaObject).

Lemma bind_get_state {S B} (k : S -> M S B) (s : S) :
  bind get_state k s = k s s.
Proof. reflexivity. Qed.

(** [createExtendedSchema] with a base, step by step. *)
Lemma createExtendedSchema_run (zodObject baseZodObject : ZodType)
  (ext base : ZodObjectDefT) (st st' : SchemaState) (r : option Schema) :
  object_def zodObject = Some ext ->
  object_def baseZodObject = Some base ->
  createExtendedSchema zodObject (Some baseZodObject) st = (Return r, st') ->
  exists st1,
    registerBase baseZodObject st = (Return tt, st1)
    /\ match schemas st1 !! zid baseZodObject,
            createDiffOpts (options_of base) (options_of ext),
            createShapeDiff (shape base) (shape ext) with
       | Some c, Some diffOpts, Some diffShape =>
           exists e,
             createObjectSchemaFromShape diffShape diffOpts st1 = (Return e, st')
             /\ r = Some
                  {| type := KSchema;
                     schema := spread [("allOf", allOf_reference c st')] (schema e);
                     effects :=
                       flattenEffects
                         [ if is_complete c then component_effects c else Some [];
                           if is_in_progress c
                           then Some [ComponentEffect zodObject (path st')]
                           else Some [];
                           effects e ] |}
       | _, _, _ => r = None /\ st' = st1
       end.
Proof.
  intros Hext Hbase H. unfold ObjectParser.createExtendedSchema in H.
  rewrite Hext, Hbase in H. bind_inv H. destruct a.
  exists st0. split; [done|]. rewrite bind_get_state in H.
  destruct (schemas st0 !! zid baseZodObject) as [c|].
  - destruct (createDiffOpts (options_of base) (options_of ext)) as [diffOpts|].
    + destruct (createShapeDiff (shape base) (shape ext)) as [diffShape|].
      * bind_inv H. rewrite bind_get_state in H. injection H as <- <-.
        exists a. split; done.
      * by injection H as <- <-.
    + by injection H as <- <-.
  - destruct (createDiffOpts (options_of base) (options_of ext));
      [destruct (createShapeDiff (shape base) (shape ext))|];
      by injection H as <- <-.
Qed.

(** [createObjectSchema]: the extension when there is one, the flat
    fragment of the whole shape otherwise. *)
Lemma createObjectSchema_run (zodObject : ZodType) (d : ZodObjectDefT)
  (st st' : SchemaState) (r : Schema) :
  object_def zodObject = Some d ->
  createObjectSchema zodObject st = (Return r, st') ->
  exists e st1,
    createExtendedSchema zodObject (extends d) st = (Return e, st1)
    /\ match e with
       | Some s => r = s /\ st' = st1
       | None =>
           createObjectSchemaFromShape (shape d) (options_of d) st1
           = (Return r, st')
       end.
Proof.
  intros Hd H. unfold ObjectParser.createObjectSchema in H. rewrite Hd in H.
  bind_inv H. exists a, st0. split; [done|].
  destruct a as [s|]; [by injection H as <- <- | done].
Qed.

Lemma extension_conditions_diff (registry : gmap positive SchemaComponent)
  (baseZodObject : ZodType) (base ext : ZodObjectDefT) :
  extension_conditions registry baseZodObject base ext
  /\ added_keys_plain (shape base) (shape ext)
  <-> exists c diffOpts diffShape,
        registry !! zid baseZodObject = Some c
        /\ createDiffOpts (options_of base) (options_of ext) = Some diffOpts
        /\ createShapeDiff (shape base) (shape ext) = Some diffShape.
Proof.
  unfold extension_conditions. split.
  - intros (([c Hc] & Hstrict & Hnever & Hshared) & Hplain).
    destruct (proj2 (createShapeDiff_Some (shape base) (shape ext))) as [d Hd];
      [by split|].
    exists c, (options_of ext), d. split; [done|]. split; [|done].
    apply createDiffOpts_Some. simpl. split; [congruence|]. split; done.
  - intros (c & diffOpts & diffShape & Hc & Ho & Hd).
    apply createDiffOpts_Some in Ho as (Hstrict & Hnever & _). simpl in *.
    destruct (proj1 (createShapeDiff_Some (shape base) (shape ext)))
      as [Hshared Hplain]; [eauto|].
    split; [|done]. split; [eauto|]. split; [congruence|]. split; done.
Qed.

End ExtensionFacts.

Section FrameFacts.
Import ObjectParser.

Variable createSchemaObject : ZodType -> list string -> M SchemaState Schema.

(** The dispatcher hands the state back with the path and the mode it
    received: the segments it pushed are popped on return. *)
Hypothesis createSchemaObject_frame :
  forall z sub st s st',
    createSchemaObject z sub st = (Return s, st') ->
    path st' = path st /\ state_type st' = state_type st.

Lemma children_run_frame (shape : list (string * ZodType))
  (st st' : SchemaState) (children : list (string * Schema)) :
  children_run createSchemaObject shape st children st' ->
  path st' = path st /\ state_type st' = state_type st.
Proof.
  induction 1 as [|key z rest st children st' Hs _ IH
                  |key z rest st s st1 children st' Hs Hcall _ IH].
  - done.
  - exact IH.
  - apply createSchemaObject_frame in Hcall as [Hp Ht].
    destruct IH as [IHp IHt]. split; congruence.
Qed.

Lemma catchall_run_frame (c : ZodType) (st st' : SchemaState)
  (ap : option Schema) :
  catchall_run createSchemaObject c st ap st' ->
  path st' = path st /\ state_type st' = state_type st.
Proof.
  unfold catchall_run. destruct (isZodType c ZodNever).
  - by intros [_ ->].
  - intros (s & _ & Hcall). by apply createSchemaObject_frame in Hcall.
Qed.

Lemma createObjectSchemaFromShape_frame (shape : list (string * ZodType))
  (opts : AdditionalPropertyOptions) (st st' : SchemaState) (r : Schema) :
  createObjectSchemaFromShape createSchemaObject shape opts st = (Return r, st') ->
  path st' = path st /\ state_type st' = state_type st.
Proof.
  intros H. apply createObjectSchemaFromShape_run in H
    as (p & st1 & req & ap & Hp & _ & _ & _ & Hc & _).
  apply mapProperties_run in Hp as (children & Hrun & _).
  apply children_run_frame in Hrun as [Hp1 Ht1].
  apply catchall_run_frame in Hc as [Hp2 Ht2]. split; congruence.
Qed.

Lemma registerBase_frame (baseZodObject : ZodType) (st st' : SchemaState) :
  registerBase createSchemaObject baseZodObject st = (Return tt, st') ->
  path st' = path st /\ state_type st' = state_type st.
Proof.
  unfold registerBase. rewrite bind_get_state.
  destruct (match schemas st !! zid baseZodObject with
            | Some _ => true
            | None => truthy_string (openapi_ref baseZodObject)
            end).
  - intros H. bind_inv H. injection H as <-.
    by apply createSchemaObject_frame in Hrun.
  - by intros [= <-].
Qed.

(** What [isOptionalSchema] answers depends on the state through the mode
    alone. *)
Lemma optional_mode (z : ZodType) (st1 st2 : SchemaState) :
  state_type st1 = state_type st2 ->
  optional (isOptionalSchema z st1) = optional (isOptionalSchema z st2).
Proof.
  intros H. unfold isOptionalSchema. rewrite H.
  by destruct (isZodType z ZodOptional || isZodType z ZodNever
               || isZodType z ZodUndefined), (isZodType z ZodDefault).
Qed.

Lemma required_fields_mode (shape : list (string * ZodType))
  (st1 st2 : SchemaState) :
  state_type st1 = state_type st2 ->
  required_fields st1 shape = required_fields st2 shape.
Proof.
  intros H. unfold required_fields. f_equal.
  induction shape as [|[k z] shape IH]; simpl; [done|].
  rewrite (optional_mode z (at_property k st1) (at_property k st2)) by done.
  by rewrite IH.
Qed.

(** The [required] array of the flat fragment, in terms of the state the
    composer was called with. *)
Lemma fragment_required_flat (shape : list (string * ZodType))
  (opts : AdditionalPropertyOptions) (st st' : SchemaState) (r : Schema) :
  createObjectSchemaFromShape createSchemaObject shape opts st = (Return r, st') ->
  obj_get "required" (schema r)
  = if Nat.eqb (length (required_fields st shape)) 0 then None
    else Some (JArray (map JString (required_fields st shape))).
Proof.
  intros H. apply createObjectSchemaFromShape_run in H
    as (p & st1 & req & ap & Hp & _ & Hreq & _ & _ & _ & Hs & _).
  apply mapProperties_run in Hp as (children & Hrun & _).
  apply children_run_frame in Hrun as [_ Ht].
  rewrite Hs, object_literal_required, Hreq.
  by rewrite (required_fields_mode shape st1 st Ht).
Qed.

End FrameFacts.

(** ** The claims about the flat fragment *)

Section FlatClaims.
Import ObjectParser.

Variable createSchemaObject : ZodType -> list string -> M SchemaState Schema.

Hypothesis createSchemaObject_frame :
  forall z sub st s st',
    createSchemaObject z sub st = (Return s, st') ->
    path st' = path st /\ state_type st' = state_type st.

(** C5, as the code has it.  In the fragment of a shape, a catch-all that
    is not the never sentinel sets [additionalProperties] to the fragment
    synthesized from it, whatever the unknown-keys policy; with a never
    catch-all the key is [false] under [strict] and is missing otherwise. *)
Theorem additionalProperties_policy (shape : list (string * ZodType))
  (opts : AdditionalPropertyOptions) (st st' : SchemaState) (r : Schema) :
  createObjectSchemaFromShape createSchemaObject shape opts st = (Return r, st') ->
  (typeName (catchAll opts) <> ZodNever ->
     exists st1 ap,
       createSchemaObject (catchAll opts) ["additional properties"] st1
       = (Return ap, st')
       /\ obj_get "additionalProperties" (schema r) = Some (JObject (schema ap)))
  /\ (typeName (catchAll opts) = ZodNever -> unknownKeys opts = Some strict ->
        obj_get "additionalProperties" (schema r) = Some (JBool false))
  /\ (typeName (catchAll opts) = ZodNever -> unknownKeys opts <> Some strict ->
        has_key "additionalProperties" (schema r) = false).
Proof.
  intros H. apply createObjectSchemaFromShape_run in H
    as (p & st1 & req & ap & _ & _ & _ & _ & Hc & _ & Hs & _).
  unfold has_key. rewrite Hs, object_literal_additionalProperties.
  unfold catchall_run, isZodType in Hc.
  destruct (typeName (catchAll opts)) eqn:Hk; simpl in Hc;
    try (destruct Hc as (s & -> & Hcall);
         split; [intros _; by exists st1, s | split; intros; congruence]).
  destruct Hc as [-> ->]. split; [congruence|].
  split; intros _ Hu.
  - by rewrite Hu.
  - unfold is_strict. by destruct (unknownKeys opts) as [[| |]|].
Qed.

(** The [properties] key of the fragment of a shape. *)
Lemma flat_fragment_properties (shape : list (string * ZodType))
  (opts : AdditionalPropertyOptions) (st st' : SchemaState) (r : Schema) :
  createObjectSchemaFromShape createSchemaObject shape opts st = (Return r, st') ->
  (has_key "properties" (schema r) = false <-> shape = [])
  /\ (forall k, In k (keys (fragment_properties (schema r)))
                <-> k <> "__proto__"
                    /\ exists z, In (k, z) shape /\ is_sentinel z = false).
Proof.
  intros H. apply createObjectSchemaFromShape_run in H
    as (p & st1 & req & ap & Hp & _ & _ & _ & _ & _ & Hs & _).
  apply mapProperties_run in Hp as (children & Hrun & Hpm).
  apply children_run_keys in Hrun.
  unfold has_key, fragment_properties. rewrite Hs, object_literal_properties.
  split.
  - destruct p as [pm|]; [destruct Hpm as [Hne _] | ]; split; congruence.
  - intros k. destruct p as [pm|].
    + destruct Hpm as (_ & -> & _). rewrite write_properties_keys, Hrun.
      rewrite in_map_iff. split.
      * intros [[([k' z] & <- & Hin) Hne]|[]].
        apply filter_In in Hin as [Hin Hs'].
        split; [done|]. exists z. split; [done|]. by apply negb_true_iff.
      * intros (Hne & z & Hin & Hs'). left. split; [|done].
        exists (k, z). split; [done|].
        apply filter_In. split; [done|]. simpl. by rewrite Hs'.
    + subst shape. simpl. split; [done | intros (_ & z & [] & _)].
Qed.

(** C10, as the code has it.  The fragment of a shape has no [properties]
    key exactly when the shape has no entry; with entries, a key other
    than [__proto__] is a key of the [properties] object exactly when it is
    a field that is no sentinel, so a shape of sentinels alone gets an
    empty object.  The [required] key is missing exactly when no field is
    required, and is never an empty array. *)
Theorem properties_and_required_keys (shape : list (string * ZodType))
  (opts : AdditionalPropertyOptions) (st st' : SchemaState) (r : Schema) :
  createObjectSchemaFromShape createSchemaObject shape opts st = (Return r, st') ->
  (has_key "properties" (schema r) = false <-> shape = [])
  /\ (forall k, k <> "__proto__" ->
                (In k (keys (fragment_properties (schema r)))
                 <-> exists z, In (k, z) shape /\ is_sentinel z = false))
  /\ (has_key "required" (schema r) = false <-> required_fields st shape = [])
  /\ obj_get "required" (schema r) <> Some (JArray []).
Proof.
  intros H.
  pose proof (fragment_required_flat _ createSchemaObject_frame _ _ _ _ _ H) as Hreq.
  destruct (flat_fragment_properties _ _ _ _ _ H) as [Hkey Hprops].
  split; [exact Hkey|]. split; [intros k Hk; rewrite Hprops; tauto|].
  unfold has_key. rewrite Hreq. split.
  - destruct (required_fields st shape); simpl; split; congruence.
  - destruct (required_fields st shape); simpl; congruence.
Qed.

(** C3.  In the fragment of a shape, a field whose node is the never or the
    undefined sentinel is no key of [properties] and no member of
    [required]. *)
Theorem sentinel_fields_are_omitted (shape : list (string * ZodType))
  (opts : AdditionalPropertyOptions) (st st' : SchemaState) (r : Schema)
  (key : string) (z : ZodType) :
  createObjectSchemaFromShape createSchemaObject shape opts st = (Return r, st') ->
  List.NoDup (keys shape) ->
  In (key, z) shape ->
  typeName z = ZodNever \/ typeName z = ZodUndefined ->
  ~ In key (keys (fragment_properties (schema r)))
  /\ ~ In (JString key) (fragment_required (schema r)).
Proof.
  intros H Hnd Hin Hz.
  assert (is_sentinel z = true) as Hsent.
  { unfold is_sentinel, isZodType. by destruct Hz as [-> | ->]. }
  pose proof (fragment_required_flat _ createSchemaObject_frame _ _ _ _ _ H) as Hreq.
  pose proof (flat_fragment_properties _ _ _ _ _ H) as [_ Hprops].
  split.
  - rewrite Hprops. intros (_ & z' & Hin' & Hs').
    assert (z = z') by (eapply NoDup_keys_unique; eauto). congruence.
  - unfold fragment_required. rewrite Hreq.
    destruct (Nat.eqb (length (required_fields st shape)) 0); [tauto|].
    rewrite in_map_iff. intros (k' & [= ->] & Hk).
    apply required_fields_In in Hk as (z' & Hin' & Hopt).
    assert (z = z') by (eapply NoDup_keys_unique; eauto). subst z'.
    assert (optional (isOptionalSchema z (at_property key st)) = true) as Ho.
    { apply isOptionalSchema_optional. tauto. }
    congruence.
Qed.

(** C2, as the code and the modelled [isOptionalSchema] have it.  A field
    of a shape is missing from [required] exactly when its node is an
    [optional] wrapper, a [default] wrapper in input mode, or the never or
    the undefined sentinel. *)
Theorem required_field_law (shape : list (string * ZodType))
  (opts : AdditionalPropertyOptions) (st st' : SchemaState) (r : Schema)
  (key : string) (z : ZodType) :
  createObjectSchemaFromShape createSchemaObject shape opts st = (Return r, st') ->
  List.NoDup (keys shape) ->
  In (key, z) shape ->
  (~ In (JString key) (fragment_required (schema r))
   <-> typeName z = ZodOptional
       \/ (typeName z = ZodDefault /\ state_type st = input)
       \/ typeName z = ZodNever
       \/ typeName z = ZodUndefined).
Proof.
  intros H Hnd Hin.
  pose proof (fragment_required_flat _ createSchemaObject_frame _ _ _ _ _ H) as Hreq.
  assert (In (JString key) (fragment_required (schema r))
          <-> optional (isOptionalSchema z (at_property key st)) = false) as Hmem.
  { unfold fragment_required. rewrite Hreq. split.
    - destruct (Nat.eqb (length (required_fields st shape)) 0); [intros []|].
      rewrite in_map_iff. intros (k' & [= ->] & Hk).
      apply required_fields_In in Hk as (z' & Hin' & Hopt).
      assert (z = z') by (eapply NoDup_keys_unique; eauto). by subst z'.
    - intros Hopt.
      assert (In key (required_fields st shape)) as Hk.
      { apply required_fields_In. eauto. }
      destruct (required_fields st shape) as [|k0 l] eqn:E; [done|].
      simpl Nat.eqb. cbv iota. apply in_map_iff. eauto. }
  rewrite Hmem.
  change (state_type st) with (state_type (at_property key st)).
  rewrite <- isOptionalSchema_optional.
  destruct (optional (isOptionalSchema z (at_property key st))); split;
    congruence.
Qed.

End FlatClaims.

(** ** The claims about extensions and effects *)

Section ExtensionClaims.
Import ObjectParser.

Variable createSchemaObject : ZodType -> list string -> M SchemaState Schema.

Hypothesis createSchemaObject_frame :
  forall z sub st s st',
    createSchemaObject z sub st = (Return s, st') ->
    path st' = path st /\ state_type st' = state_type st.

(** The fragment of a shape has no [allOf] key. *)
Lemma flat_fragment_no_allOf (shape : list (string * ZodType))
  (opts : AdditionalPropertyOptions) (st st' : SchemaState) (r : Schema) :
  createObjectSchemaFromShape createSchemaObject shape opts st = (Return r, st') ->
  has_key "allOf" (schema r) = false.
Proof.
  intros H. apply createObjectSchemaFromShape_run in H
    as (p & st1 & req & ap & _ & _ & _ & _ & _ & _ & Hs & _).
  unfold has_key. by rewrite Hs, object_literal_allOf.
Qed.

(** The effects of the fragment of a shape: those of the children in
    order, those of the catch-all, those recorded for the required
    fields. *)
Lemma flat_fragment_effects (shape : list (string * ZodType))
  (opts : AdditionalPropertyOptions) (st st' : SchemaState) (r : Schema) :
  createObjectSchemaFromShape createSchemaObject shape opts st = (Return r, st') ->
  exists children st1 ap,
    children_run createSchemaObject shape st children st1
    /\ catchall_run createSchemaObject (catchAll opts) st1 ap st'
    /\ effect_list (effects r)
       = concat (map (fun kc => effect_list (effects (snd kc))) children)
         ++ effect_list (match ap with Some s => effects s | None => None end)
         ++ required_field_effects st1 shape.
Proof.
  intros H. apply createObjectSchemaFromShape_run in H
    as (p & st1 & req & ap & Hp & _ & _ & Hre & Hc & _ & _ & He).
  apply mapProperties_run in Hp as (children & Hrun & Hpm).
  exists children, st1, ap. split; [done|]. split; [done|].
  rewrite He, flattenEffects_concat, map_app, concat_app. simpl.
  rewrite app_nil_r, Hre. f_equal.
  destruct p as [pm|].
  - destruct Hpm as (_ & _ & ->). by rewrite map_map.
  - subst shape. by inversion Hrun.
Qed.

(** X16.  For an object node with an extension base, the fragment has an
    [allOf] key exactly when, once the base has been given the chance to
    register, the base has a registry entry, its unknown-keys policy is not
    [strict], its catch-all is the never sentinel, every key shared with
    the base is bound to the same node, and no key the extension adds names
    a member of [Object.prototype].  The [allOf] value is then the
    reference to the entry of the base; otherwise the fragment is the flat
    fragment of the whole shape. *)
Theorem allOf_iff_extension_conditions (zodObject baseZodObject : ZodType)
  (ext base : ZodObjectDefT) (st st' : SchemaState) (r : Schema) :
  object_def zodObject = Some ext ->
  extends ext = Some baseZodObject ->
  object_def baseZodObject = Some base ->
  createObjectSchema createSchemaObject zodObject st = (Return r, st') ->
  exists st1,
    registerBase createSchemaObject baseZodObject st = (Return tt, st1)
    /\ (has_key "allOf" (schema r) = true
        <-> extension_conditions (schemas st1) baseZodObject base ext
            /\ added_keys_plain (shape base) (shape ext))
    /\ (forall c, schemas st1 !! zid baseZodObject = Some c ->
                  has_key "allOf" (schema r) = true ->
                  obj_get "allOf" (schema r) = Some (allOf_reference c st'))
    /\ (~ (extension_conditions (schemas st1) baseZodObject base ext
           /\ added_keys_plain (shape base) (shape ext)) ->
        has_key "allOf" (schema r) = false
        /\ createObjectSchemaFromShape createSchemaObject (shape ext)
             (options_of ext) st1 = (Return r, st')).
Proof.
  intros Hext Hextends Hbase H.
  destruct (createObjectSchema_run _ _ _ _ _ _ Hext H) as (e & st1' & He & Hm).
  rewrite Hextends in He.
  destruct (createExtendedSchema_run _ _ _ _ _ _ _ _ Hext Hbase He)
    as (st1 & Hreg & Hcase).
  exists st1. split; [done|].
  rewrite extension_conditions_diff.
  destruct (schemas st1 !! zid baseZodObject) as [c|] eqn:Hc;
    [destruct (createDiffOpts (options_of base) (options_of ext))
       as [diffOpts|] eqn:Ho;
     [destruct (createShapeDiff (shape base) (shape ext))
        as [diffShape|] eqn:Hd|]|].
  - destruct Hcase as (e0 & Hflat & ->). destruct Hm as [-> ->].
    apply createObjectSchemaFromShape_run in Hflat
      as (p & st2 & req & ap & _ & _ & _ & _ & _ & _ & Hs & _).
    unfold has_key. simpl. rewrite Hs, allOf_spread_literal. simpl.
    split; [split; [intros _; by exists c, diffOpts, diffShape | done]|].
    split; [by intros c' [= <-] _ |].
    intros Hnot. exfalso. apply Hnot. by exists c, diffOpts, diffShape.
  - destruct Hcase as [-> ->].
    rewrite (flat_fragment_no_allOf _ _ _ _ _ Hm).
    split; [split; [congruence | intros (c' & o & d & _ & _ & ?); congruence]|].
    split; [congruence | done].
  - destruct Hcase as [-> ->].
    rewrite (flat_fragment_no_allOf _ _ _ _ _ Hm).
    split; [split; [congruence | intros (c' & o & d & _ & ? & _); congruence]|].
    split; [congruence | done].
  - assert (e = None /\ st1' = st1) as [-> ->].
    { destruct (createDiffOpts (options_of base) (options_of ext));
        [destruct (createShapeDiff (shape base) (shape ext))|]; exact Hcase. }
    rewrite (flat_fragment_no_allOf _ _ _ _ _ Hm).
    split; [split; [congruence | intros (c' & o & d & ? & _ & _); congruence]|].
    split; [congruence | done].
Qed.

(** The effects of an extension: what the base contributes, then the
    effects of the fragment of the added fields. *)
Lemma extension_effects (c : SchemaComponent) (zodObject : ZodType)
  (st : SchemaState) (e : Schema) :
  effect_list
    (flattenEffects
       [ if is_complete c then component_effects c else Some [];
         if is_in_progress c then Some [ComponentEffect zodObject (path st)]
         else Some [];
         effects e ])
  = base_effects c zodObject st ++ effect_list (effects e).
Proof.
  rewrite flattenEffects_concat. destruct c as [name o es|name]; simpl.
  - by rewrite app_nil_r.
  - by rewrite app_nil_r.
Qed.

(** C9, where [createExtendedSchema] builds the fragment of an extension:
    the base has an entry and the two diffs, [createDiffOpts] and
    [createShapeDiff], have succeeded.  The fragment holds the [allOf]
    reference to the entry of the base whether the entry is complete or in
    progress.  With an entry in progress its effects are one component
    effect for the extension at the path of the call, followed by the
    effects of the fragment of the added fields; with a complete entry
    they are the effects stored with the entry, followed by the same. *)
Theorem extension_effects_by_entry (zodObject baseZodObject : ZodType)
  (ext base : ZodObjectDefT) (st st1 st' : SchemaState) (r : Schema)
  (c : SchemaComponent) (diffOpts : AdditionalPropertyOptions)
  (diffShape : list (string * ZodType)) :
  object_def zodObject = Some ext ->
  extends ext = Some baseZodObject ->
  object_def baseZodObject = Some base ->
  createObjectSchema createSchemaObject zodObject st = (Return r, st') ->
  registerBase createSchemaObject baseZodObject st = (Return tt, st1) ->
  schemas st1 !! zid baseZodObject = Some c ->
  createDiffOpts (options_of base) (options_of ext) = Some diffOpts ->
  createShapeDiff (shape base) (shape ext) = Some diffShape ->
  obj_get "allOf" (schema r) = Some (allOf_reference c st')
  /\ exists e,
       createObjectSchemaFromShape createSchemaObject diffShape diffOpts st1
       = (Return e, st')
       /\ (forall name, c = InProgress name ->
             effect_list (effects r)
             = ComponentEffect zodObject (path st) :: effect_list (effects e))
       /\ (forall name o es, c = Complete name o es ->
             effect_list (effects r)
             = effect_list es ++ effect_list (effects e)).
Proof.
  intros Hext Hextends Hbase H Hreg Hc Ho Hd.
  destruct (createObjectSchema_run _ _ _ _ _ _ Hext H) as (e & st1' & He & Hm).
  rewrite Hextends in He.
  destruct (createExtendedSchema_run _ _ _ _ _ _ _ _ Hext Hbase He)
    as (st1'' & Hreg' & Hcase).
  rewrite Hreg in Hreg'. injection Hreg' as <-.
  rewrite Hc, Ho, Hd in Hcase. destruct Hcase as (e0 & Hflat & ->).
  destruct Hm as [-> ->].
  pose proof (createObjectSchemaFromShape_frame _ createSchemaObject_frame
                _ _ _ _ _ Hflat) as [Hp1 _].
  pose proof (registerBase_frame _ createSchemaObject_frame _ _ _ Hreg)
    as [Hp2 _].
  split.
  - apply createObjectSchemaFromShape_run in Hflat
      as (p & st2 & req & ap & _ & _ & _ & _ & _ & _ & Hs & _).
    simpl. by rewrite Hs, allOf_spread_literal.
  - exists e0. split; [done|].
    simpl effects. rewrite extension_effects.
    split.
    + intros name ->. simpl. congruence.
    + by intros name o es ->.
Qed.

(** C4, as the code has it.  The effects of the fragment of an object node
    are a concatenation: what the registry entry of the base contributes
    when the node is emitted as an extension (the effects stored with a
    complete entry, one component effect for an entry in progress; nothing
    when the fragment is flat), then the effects of the children in field
    order, each as the dispatcher returned it, then the effects of the
    catch-all, then the effects recorded at this level while the required
    fields were determined.  No effect of a child is lost.  The shape is the
    whole shape, or the added fields of an extension.  What the call that
    registers the base returns is not part of the list. *)
Theorem effects_are_concatenated (zodObject : ZodType) (d : ZodObjectDefT)
  (st st' : SchemaState) (r : Schema) :
  object_def zodObject = Some d ->
  createObjectSchema createSchemaObject zodObject st = (Return r, st') ->
  exists inherited shape' st1 children st2 ap,
    children_run createSchemaObject shape' st1 children st2
    /\ catchall_run createSchemaObject (catchall d) st2 ap st'
    /\ effect_list (effects r)
       = inherited
         ++ concat (map (fun kc => effect_list (effects (snd kc))) children)
         ++ effect_list (match ap with Some s => effects s | None => None end)
         ++ required_field_effects st2 shape'
    /\ (forall kc e, In kc children -> In e (effect_list (effects (snd kc))) ->
                     In e (effect_list (effects r)))
    /\ ((has_key "allOf" (schema r) = false
         /\ inherited = [] /\ shape' = shape d)
        \/ (exists baseZodObject base c,
              has_key "allOf" (schema r) = true
              /\ extends d = Some baseZodObject
              /\ object_def baseZodObject = Some base
              /\ registerBase createSchemaObject baseZodObject st
                 = (Return tt, st1)
              /\ schemas st1 !! zid baseZodObject = Some c
              /\ createShapeDiff (shape base) (shape d) = Some shape'
              /\ inherited = base_effects c zodObject st)).
Proof.
  intros Hd H.
  assert (forall inherited (children : list (string * Schema))
                 (ap : option Schema) own,
            effect_list (effects r)
            = inherited
              ++ concat (map (fun kc => effect_list (effects (snd kc))) children)
              ++ effect_list (match ap with Some s => effects s | None => None end)
              ++ own ->
            forall kc e, In kc children -> In e (effect_list (effects (snd kc))) ->
                         In e (effect_list (effects r))) as Hkept.
  { intros inherited children ap own -> kc e Hin He.
    apply in_or_app. right. apply in_or_app. left.
    apply in_concat. exists (effect_list (effects (snd kc))). split; [|done].
    apply in_map_iff. by exists kc. }
  destruct (createObjectSchema_run _ _ _ _ _ _ Hd H) as (e & st1' & He & Hm).
  assert (forall st0, e = None -> st1' = st0 ->
            exists inherited shape' st1 children st2 ap,
              children_run createSchemaObject shape' st1 children st2
              /\ catchall_run createSchemaObject (catchall d) st2 ap st'
              /\ effect_list (effects r)
                 = inherited
                   ++ concat (map (fun kc => effect_list (effects (snd kc))) children)
                   ++ effect_list (match ap with Some s => effects s | None => None end)
                   ++ required_field_effects st2 shape'
              /\ has_key "allOf" (schema r) = false
              /\ inherited = [] /\ shape' = shape d) as Hflatcase.
  { intros st0 -> ->.
    pose proof (flat_fragment_no_allOf _ _ _ _ _ Hm) as Hno.
    apply flat_fragment_effects in Hm as (children & st2 & ap & Hrun & Hc & Heff).
    exists [], (shape d), st0, children, st2, ap. done. }
  destruct (extends d) as [baseZodObject|] eqn:Hextends.
  - destruct (object_def baseZodObject) as [base|] eqn:Hbase.
    + destruct (createExtendedSchema_run _ _ _ _ _ _ _ _ Hd Hbase He)
        as (st1 & Hreg & Hcase).
      destruct (schemas st1 !! zid baseZodObject) as [c|] eqn:Hc;
        [destruct (createDiffOpts (options_of base) (options_of d))
           as [diffOpts|] eqn:Ho;
         [destruct (createShapeDiff (shape base) (shape d))
            as [diffShape|] eqn:Hdiff|]|].
      * destruct Hcase as (e0 & Hflat & ->). destruct Hm as [-> <-].
        apply createDiffOpts_Some in Ho as (_ & _ & ->).
        pose proof (createObjectSchemaFromShape_frame _ createSchemaObject_frame
                      _ _ _ _ _ Hflat) as [Hp1 _].
        pose proof (registerBase_frame _ createSchemaObject_frame _ _ _ Hreg)
          as [Hp2 _].
        pose proof Hflat as Hlit.
        apply createObjectSchemaFromShape_run in Hlit
          as (p & st3 & req & ap0 & _ & _ & _ & _ & _ & _ & Hs & _).
        apply flat_fragment_effects in Hflat
          as (children & st2 & ap & Hrun & Hcall & Heff).
        assert (effect_list (effects
                  {| type := KSchema;
                     schema := spread [("allOf", allOf_reference c st')] (schema e0);
                     effects :=
                       flattenEffects
                         [ if is_complete c then component_effects c else Some [];
                           if is_in_progress c
                           then Some [ComponentEffect zodObject (path st')]
                           else Some [];
                           effects e0 ] |})
                = base_effects c zodObject st
                  ++ concat (map (fun kc => effect_list (effects (snd kc))) children)
                  ++ effect_list (match ap with Some s => effects s | None => None end)
                  ++ required_field_effects st2 diffShape) as Hall.
        { simpl effects. rewrite extension_effects, Heff.
          f_equal. destruct c; simpl; congruence. }
        exists (base_effects c zodObject st), diffShape, st1, children, st2, ap.
        split; [done|]. split; [done|]. split; [exact Hall|].
        split; [by eapply Hkept|].
        right. exists baseZodObject, base, c.
        split; [|done].
        unfold has_key. simpl. by rewrite Hs, allOf_spread_literal.
      * destruct Hcase as [-> ->].
        destruct (Hflatcase st1 eq_refl eq_refl)
          as (i & s' & s1 & ch & s2 & ap & ? & ? & Heff & ? & ? & ?).
        exists i, s', s1, ch, s2, ap. split; [done|]. split; [done|].
        split; [done|]. split; [by eapply Hkept | by left].
      * destruct Hcase as [-> ->].
        destruct (Hflatcase st1 eq_refl eq_refl)
          as (i & s' & s1 & ch & s2 & ap & ? & ? & Heff & ? & ? & ?).
        exists i, s', s1, ch, s2, ap. split; [done|]. split; [done|].
        split; [done|]. split; [by eapply Hkept | by left].
      * assert (e = None /\ st1' = st1) as [-> ->].
        { destruct (createDiffOpts (options_of base) (options_of d));
            [destruct (createShapeDiff (shape base) (shape d))|]; exact Hcase. }
        destruct (Hflatcase st1 eq_refl eq_refl)
          as (i & s' & s1 & ch & s2 & ap & ? & ? & Heff & ? & ? & ?).
        exists i, s', s1, ch, s2, ap. split; [done|]. split; [done|].
        split; [done|]. split; [by eapply Hkept | by left].
    + unfold ObjectParser.createExtendedSchema in He.
      rewrite Hd, Hbase in He. discriminate.
  - injection He as <- <-.
    destruct (Hflatcase st eq_refl eq_refl)
      as (i & s' & s1 & ch & s2 & ap & ? & ? & Heff & ? & ? & ?).
    exists i, s', s1, ch, s2, ap. split; [done|]. split; [done|].
    split; [done|]. split; [by eapply Hkept | by left].
Qed.

End ExtensionClaims.

(** ** The modelled dispatcher restores the path and the mode *)

Lemma dispatcher_frame (fuel : nat) :
  forall z sub st s st',
    Dispatcher.createSchemaObject fuel z sub st = (Return s, st') ->
    ObjectParser.path st' = ObjectParser.path st
    /\ ObjectParser.state_type st' = ObjectParser.state_type st.
Proof.
  intros z sub st s st' H. destruct fuel as [|fuel]; simpl in H.
  - discriminate.
  - unfold Dispatcher.enter in H.
    destruct (Dispatcher.lookupOrCreate _ z _) as [res st1].
    by injection H as _ <-.
Qed.

(** ** The tests of [object.test.ts], run on the model *)

Section Tests.
Import ObjectParser Fixtures.

Example test_simple_object :
  fst (run simple createOutputState) = Return simple_expected.
Proof. by vm_compute. Qed.

Example test_strict_object :
  fst (run strict_object createOutputState) = Return strict_expected.
Proof. by vm_compute. Qed.

Example test_catchall :
  fst (run with_catchall createOutputState) = Return catchall_expected.
Proof. by vm_compute. Qed.

Example test_default_input :
  fst (run with_default createInputState) = Return default_input_expected.
Proof. by vm_compute. Qed.

Example test_default_output :
  fst (run with_default createOutputState) = Return default_output_expected.
Proof. by vm_compute. Qed.

Example test_extended_object :
  fst (run extended createOutputState) = Return extended_expected.
Proof. by vm_compute. Qed.

Example test_base_with_catchall :
  fst (run base_with_catchall createOutputState)
  = Return base_with_catchall_expected.
Proof. by vm_compute. Qed.

Example test_catchall_on_extension :
  fst (run extended_with_catchall createOutputState)
  = Return extended_with_catchall_expected.
Proof. by vm_compute. Qed.

Example test_auto_registers_base :
  schemas (snd (run extended createOutputState)) !! zid object1
  = Some (Complete "obj1" object1_fragment None).
Proof. by vm_compute. Qed.

Example test_override :
  fst (run overriding createOutputState) = Return overriding_expected.
Proof. by vm_compute. Qed.

Example test_ignores_sentinels :
  fst (run with_sentinels createOutputState) = Return sentinels_expected.
Proof. by vm_compute. Qed.

(** Keys that meet [Object.prototype].  A field named [__proto__] is
    synthesized and required, and gets no property.  An extension by a
    field named [constructor] has no diff with its base.  The name
    [constructor] cannot be registered, on an empty registry either. *)
Example test_proto_field :
  createObjectSchemaFromShape dispatcher
    [("a", z_string 2); ("__proto__", z_string 3)]
    {| unknownKeys := Some strip; catchAll := z_never 1001 |} createOutputState
  = (Return (fragment
               [("type", JString "object");
                ("properties", JObject [("a", string_schema)]);
                ("required", JArray [JString "a"; JString "__proto__"])]),
     createOutputState).
Proof. by vm_compute. Qed.

Example test_constructor_field :
  createShapeDiff [("a", field_a)]
    [("a", field_a); ("constructor", z_string 21)] = None
  /\ createShapeDiff [("a", field_a)] [("a", field_a); ("b", z_string 21)]
     = Some [("b", z_string 21)].
Proof. split; reflexivity. Qed.

Example test_constructor_name :
  Index.createRegisteredSchema string_metadata (z_string 2) "constructor"
    no_components
  = (Throw (AlreadyRegistered "constructor"), no_components).
Proof. reflexivity. Qed.

End Tests.

(** ** The claims at concrete nodes *)

Section Instances.
Import ObjectParser Fixtures.

(** C5 at the object of the catch-all test. *)
Lemma additionalProperties_policy_witness :
  (typeName (z_boolean 3) <> ZodNever ->
     exists st1 ap,
       dispatcher (z_boolean 3) ["additional properties"] st1
       = (Return ap, createOutputState)
       /\ obj_get "additionalProperties" (schema catchall_expected)
          = Some (JObject (schema ap)))
  /\ (typeName (z_boolean 3) = ZodNever -> Some strip = Some strict ->
        obj_get "additionalProperties" (schema catchall_expected)
        = Some (JBool false))
  /\ (typeName (z_boolean 3) = ZodNever -> Some strip <> Some strict ->
        has_key "additionalProperties" (schema catchall_expected) = false).
Proof.
  apply (additionalProperties_policy dispatcher [("a", z_string 2)]
           {| unknownKeys := Some strip; catchAll := z_boolean 3 |}
           createOutputState createOutputState catchall_expected).
  by vm_compute.
Defined.

(** C5, the claim as stated fails: a strict object with a boolean
    catch-all gets the fragment of the catch-all, not [false]. *)
Lemma strict_with_catchall_not_false :
  createObjectSchemaFromShape dispatcher [("a", z_string 2)]
    {| unknownKeys := Some strict; catchAll := z_boolean 3 |} createOutputState
  = (Return strict_with_catchall_fragment, createOutputState)
  /\ obj_get "additionalProperties" (schema strict_with_catchall_fragment)
     = Some boolean_schema
  /\ obj_get "additionalProperties" (schema strict_with_catchall_fragment)
     <> Some (JBool false).
Proof. split; [by vm_compute | split; [reflexivity | discriminate]]. Qed.

(** C10 at the object of the first test. *)
Lemma properties_and_required_keys_witness :
  (has_key "properties" (schema simple_expected) = false
   <-> [("a", z_string 2); ("b", z_optional 3 (z_string 4))] = [])
  /\ (forall k, k <> "__proto__" ->
                (In k (keys (fragment_properties (schema simple_expected)))
                 <-> exists z, In (k, z) [("a", z_string 2);
                                          ("b", z_optional 3 (z_string 4))]
                               /\ is_sentinel z = false))
  /\ (has_key "required" (schema simple_expected) = false
      <-> required_fields createOutputState
            [("a", z_string 2); ("b", z_optional 3 (z_string 4))] = [])
  /\ obj_get "required" (schema simple_expected) <> Some (JArray []).
Proof.
  apply (properties_and_required_keys dispatcher (dispatcher_frame 8)
           [("a", z_string 2); ("b", z_optional 3 (z_string 4))]
           {| unknownKeys := Some strip; catchAll := z_never 1001 |}
           createOutputState createOutputState simple_expected).
  by vm_compute.
Defined.

(** C10, the claim as stated fails: a shape whose fields are all
    sentinels gets an empty [properties] object. *)
Lemma only_sentinels_empty_properties :
  createObjectSchemaFromShape dispatcher
    [("b", z_undefined 3); ("c", z_never 4)]
    {| unknownKeys := Some strip; catchAll := z_never 1001 |} createOutputState
  = (Return only_sentinels_fragment, createOutputState)
  /\ is_sentinel (z_undefined 3) = true
  /\ is_sentinel (z_never 4) = true
  /\ obj_get "properties" (schema only_sentinels_fragment) = Some (JObject []).
Proof. repeat (split; [by vm_compute|]). reflexivity. Qed.

(** C3 at the object of the sentinel test, for the field [c]. *)
Lemma sentinel_fields_are_omitted_witness :
  ~ In "c" (keys (fragment_properties (schema sentinels_expected)))
  /\ ~ In (JString "c") (fragment_required (schema sentinels_expected)).
Proof.
  apply (sentinel_fields_are_omitted dispatcher (dispatcher_frame 8)
           [("a", z_string 2); ("b", z_undefined 3); ("c", z_never 4)]
           {| unknownKeys := Some strip; catchAll := z_never 1001 |}
           createOutputState createOutputState sentinels_expected
           "c" (z_never 4)).
  - by vm_compute.
  - unfold keys. simpl. repeat constructor; simpl; intuition discriminate.
  - simpl. tauto.
  - by left.
Defined.

(** C2 at the object of the default test in input mode, for the field [a]. *)
Lemma required_field_law_witness :
  ~ In (JString "a") (fragment_required (schema default_input_expected))
  <-> typeName default_a = ZodOptional
      \/ (typeName default_a = ZodDefault /\ state_type createInputState = input)
      \/ typeName default_a = ZodNever
      \/ typeName default_a = ZodUndefined.
Proof.
  apply (required_field_law dispatcher (dispatcher_frame 8)
           [("a", default_a)]
           {| unknownKeys := Some strip; catchAll := z_never 1001 |}
           createInputState createInputState default_input_expected
           "a" default_a).
  - by vm_compute.
  - unfold keys. simpl. repeat constructor; simpl; intuition discriminate.
  - simpl. tauto.
Defined.

(** C2, the claim as stated fails: the field [c] of the sentinel test is
    missing from [required], and its node is the never sentinel, neither an
    [optional] nor a [default] wrapper. *)
Lemma sentinel_is_missing_from_required :
  createObjectSchemaFromShape dispatcher
    [("a", z_string 2); ("b", z_undefined 3); ("c", z_never 4)]
    {| unknownKeys := Some strip; catchAll := z_never 1001 |} createOutputState
  = (Return sentinels_expected, createOutputState)
  /\ fragment_required (schema sentinels_expected) = [JString "a"]
  /\ ~ In (JString "c") (fragment_required (schema sentinels_expected))
  /\ typeName (z_never 4) <> ZodOptional
  /\ typeName (z_never 4) <> ZodDefault.
Proof.
  split; [by vm_compute|]. split; [reflexivity|].
  split; [simpl; intuition discriminate|]. split; discriminate.
Qed.

End Instances.

Section ExtensionInstances.
Import ObjectParser Fixtures.

(** C1 fails on the code at an extension that adds a field named
    [constructor].  From the empty registry the base [object1] is
    registered by the first step; it is not [strict], its catch-all is the
    never sentinel and the one shared key, [a], is bound to the same node:
    the conditions of the claim hold.  [createShapeDiff] reads
    [baseObj["constructor"]], finds the member that the shape inherits
    from [Object.prototype] instead of [undefined], and returns [null]:
    the fragment is the flat one, without [allOf]. *)
Theorem constructor_field_is_emitted_flat :
  object_def object2_constructor = Some object2_constructor_def
  /\ object_def object1 = Some object1_def
  /\ extends object2_constructor_def = Some object1
  /\ registerBase dispatcher object1 createOutputState
     = (Return tt, obj1_complete)
  /\ extension_conditions (schemas obj1_complete) object1 object1_def
       object2_constructor_def
  /\ prop_get "constructor" (shape object1_def) = Inherited
  /\ createShapeDiff (shape object1_def) (shape object2_constructor_def) = None
  /\ createObjectSchema dispatcher object2_constructor createOutputState
     = (Return (fragment constructor_fragment), obj1_complete)
  /\ has_key "allOf" constructor_fragment = false.
Proof.
  split; [reflexivity|]. split; [reflexivity|].
  split; [reflexivity|]. split; [by vm_compute|]. split.
  { split; [exists (Complete "obj1" object1_fragment None); by vm_compute|].
    split; [done|]. split; [done|].
    intros k v bv [[= <- <-]|[[= <- <-]|[]]]; simpl; intros [= <-]; done. }
  split; [reflexivity|]. split; [reflexivity|]. split; [by vm_compute|].
  reflexivity.
Qed.

(** X16 at [object2], the extension of [object1], from the empty registry:
    the base asks for the name [obj1] and is registered by the first
    step. *)
Lemma allOf_iff_extension_conditions_witness :
  exists st1,
    registerBase dispatcher object1 createOutputState = (Return tt, st1)
    /\ (has_key "allOf" object2_fragment = true
        <-> extension_conditions (schemas st1) object1 object1_def object2_def
            /\ added_keys_plain (shape object1_def) (shape object2_def))
    /\ (forall c, schemas st1 !! zid object1 = Some c ->
                  has_key "allOf" object2_fragment = true ->
                  obj_get "allOf" object2_fragment
                  = Some (allOf_reference c obj1_complete))
    /\ (~ (extension_conditions (schemas st1) object1 object1_def object2_def
           /\ added_keys_plain (shape object1_def) (shape object2_def)) ->
        has_key "allOf" object2_fragment = false
        /\ createObjectSchemaFromShape dispatcher (shape object2_def)
             (options_of object2_def) st1
           = (Return (fragment object2_fragment), obj1_complete)).
Proof.
  apply (allOf_iff_extension_conditions dispatcher object2 object1
           object2_def object1_def createOutputState obj1_complete
           (fragment object2_fragment)).
  - reflexivity.
  - reflexivity.
  - reflexivity.
  - by vm_compute.
Defined.

(** C9 at [object2] while [object1] is in progress. *)
Lemma extension_effects_by_entry_witness :
  obj_get "allOf" (schema object2_in_progress_fragment)
  = Some (allOf_reference (InProgress "obj1") obj1_in_progress)
  /\ exists e,
       createObjectSchemaFromShape dispatcher [("b", z_string 21)]
         (options_of object2_def) obj1_in_progress
       = (Return e, obj1_in_progress)
       /\ (forall name, InProgress "obj1" = InProgress name ->
             effect_list (effects object2_in_progress_fragment)
             = ComponentEffect object2 (path obj1_in_progress)
               :: effect_list (effects e))
       /\ (forall name o es, InProgress "obj1" = Complete name o es ->
             effect_list (effects object2_in_progress_fragment)
             = effect_list es ++ effect_list (effects e)).
Proof.
  apply (extension_effects_by_entry dispatcher (dispatcher_frame 8)
           object2 object1 object2_def object1_def
           obj1_in_progress obj1_in_progress obj1_in_progress
           object2_in_progress_fragment (InProgress "obj1")
           (options_of object2_def) [("b", z_string 21)]).
  - reflexivity.
  - reflexivity.
  - reflexivity.
  - by vm_compute.
  - by vm_compute.
  - by vm_compute.
  - reflexivity.
  - reflexivity.
Defined.

(** An extension that overrides the field [a] while [object1] is in
    progress, as a call nested in its own synthesis finds it:
    [createShapeDiff] returns [null] before the fragment of an extension
    is built, and the fragment is the flat one. *)
Example test_in_progress_override :
  extends object2_override_def = Some object1
  /\ schemas obj1_in_progress !! zid object1 = Some (InProgress "obj1")
  /\ createObjectSchema dispatcher object2_override obj1_in_progress
     = (Return (fragment override_fragment), obj1_in_progress)
  /\ has_key "allOf" override_fragment = false.
Proof.
  split; [reflexivity|]. split; [by vm_compute|]. split; [by vm_compute|].
  reflexivity.
Qed.

(** C4, the claim as stated fails: while [object1] is in progress, the call
    that registers it from its extension returns a component effect for
    [object1]; the composer does not use what that call returns, and the
    effect is not in the list of the extension, which holds a component
    effect of its own. *)
Lemma base_call_effect_is_not_kept :
  registerBase dispatcher object1 obj1_in_progress
  = (Return tt, obj1_in_progress)
  /\ dispatcher object1 ["extended schema"] obj1_in_progress
     = (Return base_call_fragment, obj1_in_progress)
  /\ createObjectSchema dispatcher object2 obj1_in_progress
     = (Return object2_in_progress_fragment, obj1_in_progress)
  /\ effect_list (effects object2_in_progress_fragment)
     = [ComponentEffect object2 ["property: next"]]
  /\ ~ In base_call_effect (effect_list (effects object2_in_progress_fragment)).
Proof.
  split; [by vm_compute|]. split; [by vm_compute|]. split; [by vm_compute|].
  split; [reflexivity|]. simpl. intros [H|[]]. discriminate H.
Qed.

(** C4 at the extension of a base with a default field, in input mode: the
    effect of the base is inherited, the added field has none. *)
Lemma effects_are_concatenated_witness :
  exists inherited shape' st1 children st2 ap,
    children_run dispatcher shape' st1 children st2
    /\ catchall_run dispatcher (catchall extension_of_default_def) st2 ap
         base_with_default_complete
    /\ effect_list (effects extension_of_default_fragment)
       = inherited
         ++ concat (map (fun kc => effect_list (effects (snd kc))) children)
         ++ effect_list (match ap with Some s => effects s | None => None end)
         ++ required_field_effects st2 shape'
    /\ (forall kc e, In kc children -> In e (effect_list (effects (snd kc))) ->
                     In e (effect_list (effects extension_of_default_fragment)))
    /\ ((has_key "allOf" (schema extension_of_default_fragment) = false
         /\ inherited = [] /\ shape' = shape extension_of_default_def)
        \/ (exists baseZodObject base c,
              has_key "allOf" (schema extension_of_default_fragment) = true
              /\ extends extension_of_default_def = Some baseZodObject
              /\ object_def baseZodObject = Some base
              /\ registerBase dispatcher baseZodObject createInputState
                 = (Return tt, st1)
              /\ schemas st1 !! zid baseZodObject = Some c
              /\ createShapeDiff (shape base) (shape extension_of_default_def)
                 = Some shape'
              /\ inherited
                 = base_effects c extension_of_default createInputState)).
Proof.
  apply (effects_are_concatenated dispatcher (dispatcher_frame 8)
           extension_of_default extension_of_default_def
           createInputState base_with_default_complete
           extension_of_default_fragment).
  - reflexivity.
  - by vm_compute.
Defined.

End ExtensionInstances.

(** ** Further properties of the object composer *)

Section Order.
Import ObjectParser.

Lemma obj_set_fresh {V} (k : string) (v : V) (o : list (string * V)) :
  ~ In k (keys o) -> obj_set k v o = o ++ [(k, v)].
Proof.
  unfold keys. induction o as [|[k0 v0] o IH]; simpl; [done|].
  intros Hnot. destruct (String.eqb_spec k k0) as [->|Hne].
  - exfalso. apply Hnot. by left.
  - rewrite IH; [done|]. intros Hin. apply Hnot. by right.
Qed.

Lemma NoDup_keys_filter {V} (f : string * V -> bool) (l : list (string * V)) :
  List.NoDup (keys l) -> List.NoDup (keys (List.filter f l)).
Proof.
  unfold keys. induction l as [|[k v] l IH]; simpl; [done|].
  intros Hnd. inversion Hnd as [|? ? Hnot Hnd']; subst.
  destruct (f (k, v)); simpl; [|by apply IH].
  constructor; [|by apply IH].
  intros Hin. apply Hnot. apply in_map_iff in Hin as ([k' v'] & <- & Hin).
  apply filter_In in Hin as [Hin _]. apply in_map_iff. by exists (k', v').
Qed.

(** The loop of [createShapeDiff], when it succeeds on distinct keys, has
    appended to the accumulator the entries whose key the base lacks. *)
Lemma createShapeDiff_loop_Some (base entries : list (string * ZodType)) :
  forall acc d,
    createShapeDiff_loop base entries acc = Some d ->
    List.NoDup (keys entries) ->
    (forall k, In k (keys entries) -> ~ In k (keys acc)) ->
    d = acc ++ List.filter (fun e => negb (has_key (fst e) base)) entries.
Proof.
  induction entries as [|[key val] rest IH]; intros acc d H Hnd Hfresh; simpl in *.
  - injection H as <-. by rewrite app_nil_r.
  - unfold keys in Hnd. simpl in Hnd.
    inversion Hnd as [|? ? Hnot Hnd']; subst.
    unfold prop_get in H. unfold has_key at 1.
    destruct (obj_get key base) as [b|] eqn:Hb; simpl.
    + destruct (same_node val b); [|discriminate].
      apply IH in H; [done | done |]. intros k Hk. apply Hfresh. by right.
    + destruct (is_prototype_member key) eqn:Hm; [discriminate|]. simpl in H.
      rewrite (prop_set_plain _ _ _ (prototype_member_proto _ Hm)) in H.
      rewrite obj_set_fresh in H by (apply Hfresh; by left).
      apply IH in H; [by rewrite <- app_assoc in H | done |].
      intros k Hk Hin. unfold keys in Hin. rewrite map_app in Hin.
      apply in_app_or in Hin as [Hin|[<-|[]]].
      * apply (Hfresh k); [by right | done].
      * by apply Hnot.
Qed.

(** An assignment on a key the object does not have appends the property,
    unless the key is [__proto__]. *)
Lemma prop_set_fresh {V} (k : string) (v : V) (o : list (string * V)) :
  ~ In k (keys o) ->
  prop_set k v o = if String.eqb k "__proto__" then o else o ++ [(k, v)].
Proof.
  intros Hnot. unfold prop_set.
  destruct (has_key k o) eqn:Hown; [by apply has_key_keys in Hown|].
  destruct (String.eqb k "__proto__"); [done | by apply obj_set_fresh].
Qed.

(** The properties written for children of distinct keys onto an object
    that has none of them: one property per child, in order, the child of
    key [__proto__] apart. *)
Lemma write_properties_fresh (children : list (string * Schema)) :
  forall o : SchemaObject,
    List.NoDup (keys children) ->
    (forall k, In k (keys children) -> ~ In k (keys o)) ->
    write_properties children o
    = o ++ map (fun kc => (fst kc, JObject (schema (snd kc))))
             (List.filter (fun kc => negb (String.eqb (fst kc) "__proto__"))
                children).
Proof.
  induction children as [|[k s] children IH]; intros o Hnd Hfresh; simpl.
  - by rewrite app_nil_r.
  - unfold keys in Hnd. simpl in Hnd.
    inversion Hnd as [|? ? Hnot Hnd']; subst.
    unfold write_properties in *. simpl.
    rewrite prop_set_fresh by (apply Hfresh; by left).
    destruct (String.eqb k "__proto__"); simpl.
    + apply IH; [done|]. intros k' Hk'. apply Hfresh. by right.
    + rewrite IH; [by rewrite <- app_assoc | done |].
      intros k' Hk' Hin. unfold keys in Hin. rewrite map_app in Hin.
      apply in_app_or in Hin as [Hin|[<-|[]]].
      * apply (Hfresh k'); [by right | done].
      * by apply Hnot.
Qed.

Lemma keys_filter_filter {V} (g : string * V -> bool) (P : string -> bool)
  (l : list (string * V)) :
  keys (List.filter (fun e => P (fst e)) l) = List.filter P (keys l)
  /\ List.filter P (keys (List.filter g l))
     = keys (List.filter (fun e => g e && P (fst e)) l).
Proof.
  unfold keys. split.
  - induction l as [|[k v] l IH]; simpl; [done|].
    destruct (P k); simpl; by rewrite IH.
  - induction l as [|[k v] l IH]; simpl; [done|].
    destruct (g (k, v)); simpl; [|exact IH].
    destruct (P k); simpl; by rewrite IH.
Qed.

End Order.

(** X1.  [createShapeDiff]: on an extension with distinct keys, a diff that
    succeeds is the list of the entries of the extension whose key the base
    does not have, in the order of the extension. *)
Theorem createShapeDiff_added_fields (base ext d : list (string * ZodType)) :
  ObjectParser.createShapeDiff base ext = Some d ->
  List.NoDup (keys ext) ->
  d = List.filter (fun e => negb (has_key (fst e) base)) ext.
Proof.
  intros H Hnd. unfold ObjectParser.createShapeDiff in H.
  apply createShapeDiff_loop_Some in H; [done | done |].
  intros k _ [].
Qed.

Lemma createShapeDiff_added_fields_witness :
  [("b", Fixtures.z_string 21)]
  = List.filter
      (fun e => negb (has_key (fst e) (ObjectParser.shape Fixtures.object1_def)))
      (ObjectParser.shape Fixtures.object2_def).
Proof.
  apply (createShapeDiff_added_fields (ObjectParser.shape Fixtures.object1_def)
           (ObjectParser.shape Fixtures.object2_def)).
  - reflexivity.
  - unfold keys. simpl. repeat constructor; simpl; intuition discriminate.
Defined.

(** X2.  [mapRequired] hands the state back as it received it: every segment
    it pushes on the path is popped.  Its [required] list is the fields that
    [isOptionalSchema], as modelled, reports as not optional, in the order
    of the shape. *)
Theorem mapRequired_scoped (shape : list (string * ZodType))
  (st : ObjectParser.SchemaState) :
  exists r,
    ObjectParser.mapRequired shape st = (Return (Some r), st)
    /\ ObjectParser.required r = ObjectParser.required_fields st shape.
Proof.
  destruct (mapRequired_run shape st) as (r & Hrun & Hreq & _). eauto.
Qed.

(** X3.  [mapProperties] by way of [createObjectSchemaFromShape]: on a shape
    with distinct keys, the keys of [properties] are the fields that are no
    sentinels, in the order of the shape, without the field [__proto__]:
    the assignment [acc.properties[key] = ...] on that key replaces the
    prototype of the object and defines no property. *)
Theorem properties_follow_the_shape
  (createSchemaObject : ZodType -> list string
                        -> M ObjectParser.SchemaState ObjectParser.Schema)
  (shape : list (string * ZodType)) (opts : ObjectParser.AdditionalPropertyOptions)
  (st st' : ObjectParser.SchemaState) (r : ObjectParser.Schema) :
  ObjectParser.createObjectSchemaFromShape createSchemaObject shape opts st
  = (Return r, st') ->
  List.NoDup (keys shape) ->
  keys (ObjectParser.fragment_properties (ObjectParser.schema r))
  = keys (List.filter
            (fun e => negb (ObjectParser.is_sentinel (snd e))
                      && negb (String.eqb (fst e) "__proto__")) shape).
Proof.
  intros H Hnd. apply createObjectSchemaFromShape_run in H
    as (p & st1 & req & ap & Hp & _ & _ & _ & _ & _ & Hs & _).
  apply mapProperties_run in Hp as (children & Hrun & Hpm).
  apply children_run_keys in Hrun.
  unfold ObjectParser.fragment_properties.
  rewrite Hs, object_literal_properties.
  destruct p as [pm|].
  - destruct Hpm as (_ & -> & _).
    rewrite write_properties_fresh.
    + pose proof (proj1 (keys_filter_filter (fun _ => true)
                           (fun k => negb (String.eqb k "__proto__")) children))
        as Hchildren.
      pose proof (proj2 (keys_filter_filter
                           (fun e => negb (ObjectParser.is_sentinel (snd e)))
                           (fun k => negb (String.eqb k "__proto__")) shape))
        as Hshape.
      simpl. unfold keys in *. rewrite map_map. simpl.
      rewrite Hrun in Hchildren. exact (eq_trans Hchildren Hshape).
    + unfold keys. rewrite Hrun. by apply NoDup_keys_filter.
    + intros k _ [].
  - by subst shape.
Qed.

Lemma properties_follow_the_shape_witness :
  keys (ObjectParser.fragment_properties
          (ObjectParser.schema Fixtures.sentinels_expected))
  = keys (List.filter
            (fun e => negb (ObjectParser.is_sentinel (snd e))
                      && negb (String.eqb (fst e) "__proto__"))
            [("a", Fixtures.z_string 2); ("b", Fixtures.z_undefined 3);
             ("c", Fixtures.z_never 4)]).
Proof.
  apply (properties_follow_the_shape Fixtures.dispatcher
           [("a", Fixtures.z_string 2); ("b", Fixtures.z_undefined 3);
            ("c", Fixtures.z_never 4)]
           {| ObjectParser.unknownKeys := Some strip;
              ObjectParser.catchAll := Fixtures.z_never 1001 |}
           Fixtures.createOutputState Fixtures.createOutputState).
  - by vm_compute.
  - unfold keys. simpl. repeat constructor; simpl; intuition discriminate.
Defined.

(** X4.  [createObjectSchema] hands the state back with the path and the mode
    it received, when the dispatcher does so for every child. *)
Theorem createObjectSchema_restores_path
  (createSchemaObject : ZodType -> list string
                        -> M ObjectParser.SchemaState ObjectParser.Schema)
  (zodObject : ZodType) (st st' : ObjectParser.SchemaState)
  (r : ObjectParser.Schema) :
  (forall z sub st s st',
     createSchemaObject z sub st = (Return s, st') ->
     ObjectParser.path st' = ObjectParser.path st
     /\ ObjectParser.state_type st' = ObjectParser.state_type st) ->
  ObjectParser.createObjectSchema createSchemaObject zodObject st = (Return r, st') ->
  ObjectParser.path st' = ObjectParser.path st
  /\ ObjectParser.state_type st' = ObjectParser.state_type st.
Proof.
  intros Hframe H.
  destruct (ObjectParser.object_def zodObject) as [d|] eqn:Hd.
  - destruct (createObjectSchema_run _ _ _ _ _ _ Hd H) as (e & st1' & He & Hm).
    assert (ObjectParser.path st1' = ObjectParser.path st
            /\ ObjectParser.state_type st1' = ObjectParser.state_type st)
      as [Hp Ht].
    { destruct (ObjectParser.extends d) as [b|].
      - destruct (ObjectParser.object_def b) as [bd|] eqn:Hb.
        + destruct (createExtendedSchema_run _ _ _ _ _ _ _ _ Hd Hb He)
            as (st1 & Hreg & Hcase).
          apply (registerBase_frame _ Hframe) in Hreg as [Hp1 Ht1].
          destruct (ObjectParser.schemas st1 !! zid b);
            [destruct (ObjectParser.createDiffOpts _ _);
             [destruct (ObjectParser.createShapeDiff _ _)|]|];
            try (destruct Hcase as [_ ->]; done).
          destruct Hcase as (e0 & Hflat & _).
          apply (createObjectSchemaFromShape_frame _ Hframe) in Hflat as [? ?].
          split; congruence.
        + unfold ObjectParser.createExtendedSchema in He.
          rewrite Hd, Hb in He. discriminate.
      - by injection He as <- <-. }
    destruct e as [s|].
    + by destruct Hm as [_ ->].
    + apply (createObjectSchemaFromShape_frame _ Hframe) in Hm as [? ?].
      split; congruence.
  - unfold ObjectParser.createObjectSchema in H. rewrite Hd in H. discriminate.
Qed.

Lemma createObjectSchema_restores_path_witness :
  ObjectParser.path Fixtures.obj1_complete
  = ObjectParser.path Fixtures.createOutputState
  /\ ObjectParser.state_type Fixtures.obj1_complete
     = ObjectParser.state_type Fixtures.createOutputState.
Proof.
  apply (createObjectSchema_restores_path Fixtures.dispatcher Fixtures.object2
           Fixtures.createOutputState Fixtures.obj1_complete
           (Fixtures.fragment Fixtures.object2_fragment) (dispatcher_frame 8)).
  by vm_compute.
Defined.

(** ** Further properties of the registry of [index.ts] *)

Section RegistryMore.
Import Index.

Lemma append_inj (p a b : string) : p +:+ a = p +:+ b -> a = b.
Proof. induction p as [|ch p IH]; simpl; [done | intros [= H]; auto]. Qed.

Variable gen : ZodType -> M Components SchemaObject.

(** A call of [createRegisteredSchema] that returns: either the name was
    bound to this node and nothing changed, or the name was free and no
    member of [Object.prototype], the generator returned a fragment that is
    no reference, and the entry was written over the registry the
    generator left. *)
Lemma createRegisteredSchema_Return (z : ZodType) (schemaRef : string)
  (c c1 : Components) (r : SchemaObject) :
  createRegisteredSchema gen z schemaRef c = (Return r, c1) ->
  r = [("$ref", JString (createComponentSchemaRef schemaRef))]
  /\ ((exists component, schema c !! schemaRef = Some component
                         /\ zid (zodSchema component) = zid z /\ c1 = c)
      \/ (schema c !! schemaRef = None
          /\ is_prototype_member schemaRef = false
          /\ exists s c', gen z c = (Return s, c')
               /\ has_key "$ref" s = false
               /\ c1 = {| schema := <[schemaRef := {| schemaObject := s;
                                                     zodSchema := z |}]>
                                      (schema c') |})).
Proof.
  unfold createRegisteredSchema. intros H.
  destruct (registry_get_cases schemaRef (schema c))
    as [(component & Hget & Hread)|[(Hget & Hm & Hread)|(Hget & Hm & Hread)]];
    rewrite Hread in H.
  - unfold same_node in H.
    destruct (Pos.eqb_spec (zid (zodSchema component)) (zid z)) as [Heq|Hne];
      simpl in H; [|discriminate].
    injection H as <- <-. split; [done|]. left. by exists component.
  - discriminate.
  - destruct (gen z c) as [[s|e] c'] eqn:Hgen; [|discriminate].
    destruct (has_key "$ref" s) eqn:Hk; [discriminate|].
    injection H as <- <-. split; [done|]. right. split; [done|].
    split; [done|]. exists s, c'. by rewrite (registry_set_plain _ _ _ Hm).
Qed.

(** After a call that returned, the name is bound to a node of this
    identity. *)
Lemma createRegisteredSchema_bound (z : ZodType) (schemaRef : string)
  (c c1 : Components) (r : SchemaObject) :
  createRegisteredSchema gen z schemaRef c = (Return r, c1) ->
  exists entry, schema c1 !! schemaRef = Some entry
                /\ zid (zodSchema entry) = zid z.
Proof.
  intros H. apply createRegisteredSchema_Return in H
    as [_ [(component & Hget & Hid & ->)|(_ & _ & s & c' & _ & _ & ->)]].
  - by exists component.
  - eexists. split; [apply lookup_insert_eq | done].
Qed.

End RegistryMore.

(** X5.  [createComponentSchemaRef]: two names give the same reference only
    when they are the same name. *)
Theorem createComponentSchemaRef_injective (a b : string) :
  Index.createComponentSchemaRef a = Index.createComponentSchemaRef b <-> a = b.
Proof.
  split; [apply append_inj | by intros ->].
Qed.

(** X6.  [createRegisteredSchema], when it returns: the name is bound to a
    node of the identity that was registered.  When the name was free
    before, the entry holds the node and the fragment the generator
    returned, that fragment is no reference, and every other name is bound
    as the generator left it; when the name was bound before, the registry
    is the one received. *)
Theorem registration_binds_the_node
  (gen : ZodType -> M Index.Components SchemaObject)
  (z : ZodType) (schemaRef : string) (c c1 : Index.Components)
  (r : SchemaObject) :
  Index.createRegisteredSchema gen z schemaRef c = (Return r, c1) ->
  (exists entry, Index.schema c1 !! schemaRef = Some entry
                 /\ zid (Index.zodSchema entry) = zid z)
  /\ (Index.schema c !! schemaRef = None ->
      exists s c',
        gen z c = (Return s, c')
        /\ has_key "$ref" s = false
        /\ Index.schema c1 !! schemaRef
           = Some {| Index.schemaObject := s; Index.zodSchema := z |}
        /\ forall other, other <> schemaRef ->
             Index.schema c1 !! other = Index.schema c' !! other)
  /\ (Index.schema c !! schemaRef <> None -> c1 = c).
Proof.
  intros H. split; [by eapply createRegisteredSchema_bound|].
  apply createRegisteredSchema_Return in H
    as [_ [(component & Hget & Hid & ->)|(Hnone & _ & s & c' & Hgen & Hk & ->)]].
  - split; [congruence | done].
  - split; [|congruence]. intros _. exists s, c'.
    split; [done|]. split; [done|]. simpl.
    split; [apply lookup_insert_eq|].
    intros other Hne. by apply lookup_insert_ne.
Qed.

Lemma registration_binds_the_node_witness :
  (exists entry, Index.schema Fixtures.obj1_registered !! "obj1" = Some entry
                 /\ zid (Index.zodSchema entry) = zid (Fixtures.z_string 2))
  /\ (Index.schema Fixtures.no_components !! "obj1" = None ->
      exists s c',
        Fixtures.string_metadata (Fixtures.z_string 2) Fixtures.no_components
        = (Return s, c')
        /\ has_key "$ref" s = false
        /\ Index.schema Fixtures.obj1_registered !! "obj1"
           = Some {| Index.schemaObject := s;
                     Index.zodSchema := Fixtures.z_string 2 |}
        /\ forall other, other <> "obj1" ->
             Index.schema Fixtures.obj1_registered !! other
             = Index.schema c' !! other)
  /\ (Index.schema Fixtures.no_components !! "obj1" <> None ->
      Fixtures.obj1_registered = Fixtures.no_components).
Proof.
  apply (registration_binds_the_node Fixtures.string_metadata
           (Fixtures.z_string 2) "obj1" Fixtures.no_components
           Fixtures.obj1_registered
           [("$ref", JString "#/components/schemas/obj1")]).
  reflexivity.
Defined.

(** X7.  [createRegisteredSchema] fails in exactly four ways, and writes no
    entry in any of them: the name is bound to another node (the registry
    is the one received); the name is not bound and is the name of a member
    of [Object.prototype], which [components.schema[schemaRef]] finds in
    place of an entry (the already-registered error as well, the registry
    is the one received); the name is free and the generator throws (its
    error, and the registry it left); the name is free and the generator
    returns a reference object (the unexpected-reference error, and the
    registry the generator left). *)
Theorem registration_failures
  (gen : ZodType -> M Index.Components SchemaObject)
  (z : ZodType) (schemaRef : string) (c c1 : Index.Components) (e : Error) :
  Index.createRegisteredSchema gen z schemaRef c = (Throw e, c1)
  <-> (exists component,
         Index.schema c !! schemaRef = Some component
         /\ zid (Index.zodSchema component) <> zid z
         /\ e = AlreadyRegistered schemaRef /\ c1 = c)
      \/ (Index.schema c !! schemaRef = None
          /\ is_prototype_member schemaRef = true
          /\ e = AlreadyRegistered schemaRef /\ c1 = c)
      \/ (Index.schema c !! schemaRef = None
          /\ is_prototype_member schemaRef = false
          /\ gen z c = (Throw e, c1))
      \/ (Index.schema c !! schemaRef = None
          /\ is_prototype_member schemaRef = false
          /\ exists s, gen z c = (Return s, c1)
               /\ has_key "$ref" s = true /\ e = UnexpectedReference).
Proof.
  unfold Index.createRegisteredSchema.
  destruct (registry_get_cases schemaRef (Index.schema c))
    as [(component & Hget & Hread)|[(Hget & Hm & Hread)|(Hget & Hm & Hread)]];
    rewrite Hread.
  - unfold same_node.
    destruct (Pos.eqb_spec (zid (Index.zodSchema component)) (zid z))
      as [Heq|Hne]; simpl.
    + split; [discriminate|].
      intros [(c0 & Hc0 & Hne & _)|[[? _]|[[? _]|[? _]]]]; congruence.
    + split.
      * intros [= <- <-]. left. by exists component.
      * intros [(c0 & _ & _ & -> & ->)|[[? _]|[[? _]|[? _]]]]; congruence.
  - split.
    + intros [= <- <-]. right. left. done.
    + intros [(c0 & ? & _)|[(_ & _ & -> & ->)|[(_ & ? & _)|(_ & ? & _)]]];
        congruence.
  - destruct (gen z c) as [[s|e0] c'] eqn:Hgen.
    + destruct (has_key "$ref" s) eqn:Hk.
      * split.
        -- intros [= <- <-]. right. right. right.
           split; [done|]. split; [done|]. by exists s.
        -- intros [(c0 & ? & _)|[(_ & ? & _)|[(_ & _ & ?)
                  |(_ & _ & s0 & [= <- <-] & _ & ->)]]]; congruence.
      * split; [discriminate|].
        intros [(c0 & ? & _)|[(_ & ? & _)|[(_ & _ & ?)
               |(_ & _ & s0 & [= <- <-] & ? & _)]]]; congruence.
    + split.
      * intros [= <- <-]. right. right. left. done.
      * intros [(c0 & ? & _)|[(_ & ? & _)|[(_ & _ & [= <- <-])
               |(_ & _ & s0 & ? & _)]]]; congruence.
Qed.

Section SchemaOrRefFacts.
Import Index.

(** [createSchemaOrRef] on a node that asks for a name is the registration
    under that name. *)
Lemma createSchemaOrRef_named
  (gen : ZodType -> M Components SchemaObject) (z : ZodType) (name : string) :
  openapi_ref z = Some name -> name <> "" ->
  createSchemaOrRef gen z = createRegisteredSchema gen z name.
Proof.
  intros Href Hne. unfold createSchemaOrRef. rewrite Href.
  apply String.eqb_neq in Hne. by rewrite Hne.
Qed.

(** Once a name is bound to a node, registering a node of that identity
    returns the reference without a write, and registering a node of
    another identity throws, whatever the generator. *)
Lemma createRegisteredSchema_on_bound
  (gen : ZodType -> M Components SchemaObject) (z : ZodType) (name : string)
  (c : Components) (entry : SchemaComponent) :
  schema c !! name = Some entry ->
  createRegisteredSchema gen z name c
  = if Pos.eqb (zid (zodSchema entry)) (zid z)
    then (Return [("$ref", JString (createComponentSchemaRef name))], c)
    else (Throw (AlreadyRegistered name), c).
Proof.
  intros Hget. unfold createRegisteredSchema, same_node.
  rewrite (registry_get_Own _ _ _ Hget).
  by destruct (Pos.eqb (zid (zodSchema entry)) (zid z)).
Qed.

End SchemaOrRefFacts.

(** X8.  [createSchemaOrRef] on a node that asks for a name: after a call
    that returned, a second call on the same node returns the same
    reference object and leaves the registry as it is, whatever generator
    it is given. *)
Theorem createSchemaOrRef_idempotent
  (gen gen' : ZodType -> M Index.Components SchemaObject)
  (z : ZodType) (name : string) (c c1 : Index.Components) (r : SchemaObject) :
  openapi_ref z = Some name -> name <> "" ->
  Index.createSchemaOrRef gen z c = (Return r, c1) ->
  Index.createSchemaOrRef gen' z c1 = (Return r, c1)
  /\ r = [("$ref", JString (Index.createComponentSchemaRef name))].
Proof.
  intros Href Hne H.
  rewrite (createSchemaOrRef_named gen z name Href Hne) in H.
  rewrite (createSchemaOrRef_named gen' z name Href Hne).
  pose proof (createRegisteredSchema_bound gen _ _ _ _ _ H) as (entry & Hget & Hid).
  apply createRegisteredSchema_Return in H as [-> _].
  rewrite (createRegisteredSchema_on_bound gen' z name c1 entry Hget).
  apply Pos.eqb_eq in Hid. by rewrite Hid.
Qed.

Lemma createSchemaOrRef_idempotent_witness :
  Index.createSchemaOrRef Fixtures.unused_metadata
    (MkZod 2 (Fixtures.with_ref "obj1") ZodStringDef)
    {| Index.schema :=
         <["obj1" := {| Index.schemaObject := [("type", JString "string")];
                        Index.zodSchema :=
                          MkZod 2 (Fixtures.with_ref "obj1") ZodStringDef |}]> ∅ |}
  = (Return [("$ref", JString "#/components/schemas/obj1")],
     {| Index.schema :=
          <["obj1" := {| Index.schemaObject := [("type", JString "string")];
                         Index.zodSchema :=
                           MkZod 2 (Fixtures.with_ref "obj1") ZodStringDef |}]> ∅ |})
  /\ [("$ref", JString "#/components/schemas/obj1")]
     = [("$ref", JString (Index.createComponentSchemaRef "obj1"))].
Proof.
  apply (createSchemaOrRef_idempotent Fixtures.string_metadata
           Fixtures.unused_metadata
           (MkZod 2 (Fixtures.with_ref "obj1") ZodStringDef) "obj1"
           Fixtures.no_components).
  - reflexivity.
  - discriminate.
  - reflexivity.
Defined.

(** X9.  [createSchemaOrRef]: a name serves one node.  After a node that
    asks for a name was synthesized, the synthesis of a node of another
    identity that asks for the same name throws the already-registered
    error and leaves the registry as it is, whatever generator it is
    given. *)
Theorem one_node_per_name
  (gen gen' : ZodType -> M Index.Components SchemaObject)
  (z1 z2 : ZodType) (name : string) (c c1 : Index.Components)
  (r : SchemaObject) :
  openapi_ref z1 = Some name -> openapi_ref z2 = Some name -> name <> "" ->
  zid z1 <> zid z2 ->
  Index.createSchemaOrRef gen z1 c = (Return r, c1) ->
  Index.createSchemaOrRef gen' z2 c1 = (Throw (AlreadyRegistered name), c1).
Proof.
  intros Href1 Href2 Hne Hid H.
  rewrite (createSchemaOrRef_named gen z1 name Href1 Hne) in H.
  rewrite (createSchemaOrRef_named gen' z2 name Href2 Hne).
  apply createRegisteredSchema_bound in H as (entry & Hget & Hentry).
  rewrite (createRegisteredSchema_on_bound gen' z2 name c1 entry Hget).
  rewrite Hentry. apply Pos.eqb_neq in Hid. by rewrite Hid.
Qed.

Lemma one_node_per_name_witness :
  Index.createSchemaOrRef Fixtures.string_metadata
    (MkZod 7 (Fixtures.with_ref "obj1") ZodNumberDef)
    {| Index.schema :=
         <["obj1" := {| Index.schemaObject := [("type", JString "string")];
                        Index.zodSchema :=
                          MkZod 2 (Fixtures.with_ref "obj1") ZodStringDef |}]> ∅ |}
  = (Throw (AlreadyRegistered "obj1"),
     {| Index.schema :=
          <["obj1" := {| Index.schemaObject := [("type", JString "string")];
                         Index.zodSchema :=
                           MkZod 2 (Fixtures.with_ref "obj1") ZodStringDef |}]> ∅ |}).
Proof.
  apply (one_node_per_name Fixtures.string_metadata Fixtures.string_metadata
           (MkZod 2 (Fixtures.with_ref "obj1") ZodStringDef)
           (MkZod 7 (Fixtures.with_ref "obj1") ZodNumberDef) "obj1"
           Fixtures.no_components _
           [("$ref", JString "#/components/schemas/obj1")]).
  - reflexivity.
  - reflexivity.
  - discriminate.
  - simpl. discriminate.
  - reflexivity.
Defined.

(** ** Further properties of the fragments of [object.ts] *)

Section LiteralShape.
Import ObjectParser.

Variables (p : option PropertyMap) (req : option RequiredResult)
          (uk : option UnknownKeysParam) (ap : option Schema).

Ltac literal_shape :=
  unfold object_literal, is_strict;
  destruct p as [[ps pe]|], req as [[[|k0 r] e]|], uk as [[| |]|], ap as [[t o e']|];
  reflexivity.

(** The keys of the object literal: [type], then the optional keys that
    are present, in the order of the literal, each once. *)
Lemma object_literal_keys :
  keys (object_literal p req uk ap)
  = List.filter (fun k => has_key k (object_literal p req uk ap))
      ["type"; "properties"; "required"; "additionalProperties"].
Proof. literal_shape. Qed.

Lemma object_literal_type_object :
  obj_get "type" (object_literal p req uk ap) = Some (JString "object").
Proof. literal_shape. Qed.

(** [{ allOf: x, ...literal }] is the literal with [allOf] in front. *)
Lemma allOf_cons_literal (x : json) :
  spread [("allOf", x)] (object_literal p req uk ap)
  = ("allOf", x) :: object_literal p req uk ap.
Proof. literal_shape. Qed.

End LiteralShape.

(** X10.  The fragment [createObjectSchemaFromShape] returns has the type
    [object], and its keys are [type] followed by those of [properties],
    [required] and [additionalProperties] that are present, in this order
    and each once: no other key is written. *)
Theorem flat_fragment_keys
  (createSchemaObject : ZodType -> list string
                        -> M ObjectParser.SchemaState ObjectParser.Schema)
  (shape : list (string * ZodType)) (opts : ObjectParser.AdditionalPropertyOptions)
  (st st' : ObjectParser.SchemaState) (r : ObjectParser.Schema) :
  ObjectParser.createObjectSchemaFromShape createSchemaObject shape opts st
  = (Return r, st') ->
  ObjectParser.type r = ObjectParser.KSchema
  /\ obj_get "type" (ObjectParser.schema r) = Some (JString "object")
  /\ keys (ObjectParser.schema r)
     = List.filter (fun k => has_key k (ObjectParser.schema r))
         ["type"; "properties"; "required"; "additionalProperties"].
Proof.
  intros H. apply createObjectSchemaFromShape_run in H
    as (p & st1 & req & ap & _ & _ & _ & _ & _ & Ht & Hs & _).
  split; [done|]. rewrite Hs. split.
  - apply object_literal_type_object.
  - apply object_literal_keys.
Qed.

Lemma flat_fragment_keys_witness :
  ObjectParser.type Fixtures.strict_expected = ObjectParser.KSchema
  /\ obj_get "type" (ObjectParser.schema Fixtures.strict_expected)
     = Some (JString "object")
  /\ keys (ObjectParser.schema Fixtures.strict_expected)
     = List.filter (fun k => has_key k (ObjectParser.schema Fixtures.strict_expected))
         ["type"; "properties"; "required"; "additionalProperties"].
Proof.
  apply (flat_fragment_keys Fixtures.dispatcher [("a", Fixtures.z_string 2)]
           {| ObjectParser.unknownKeys := Some strict;
              ObjectParser.catchAll := Fixtures.z_never 3 |}
           Fixtures.createOutputState Fixtures.createOutputState).
  by vm_compute.
Defined.

(** X11.  An extension that is emitted as [allOf]: the fragment is the
    fragment of the added fields, synthesized under the unknown-keys policy
    and the catch-all of the extension itself, with the [allOf] reference to
    the entry of the base in front of it. *)
Theorem extension_fragment_is_diff_with_allOf
  (createSchemaObject : ZodType -> list string
                        -> M ObjectParser.SchemaState ObjectParser.Schema)
  (zodObject : ZodType) (ext : ObjectParser.ZodObjectDefT)
  (st st' : ObjectParser.SchemaState) (r : ObjectParser.Schema) :
  ObjectParser.object_def zodObject = Some ext ->
  ObjectParser.createObjectSchema createSchemaObject zodObject st = (Return r, st') ->
  has_key "allOf" (ObjectParser.schema r) = true ->
  exists baseZodObject base st1 c diffShape e,
    ObjectParser.extends ext = Some baseZodObject
    /\ ObjectParser.object_def baseZodObject = Some base
    /\ ObjectParser.registerBase createSchemaObject baseZodObject st
       = (Return tt, st1)
    /\ ObjectParser.schemas st1 !! zid baseZodObject = Some c
    /\ ObjectParser.createShapeDiff (ObjectParser.shape base) (ObjectParser.shape ext)
       = Some diffShape
    /\ ObjectParser.createObjectSchemaFromShape createSchemaObject diffShape
         (ObjectParser.options_of ext) st1 = (Return e, st')
    /\ ObjectParser.schema r
       = ("allOf", ObjectParser.allOf_reference c st') :: ObjectParser.schema e.
Proof.
  intros Hext H Hkey.
  destruct (createObjectSchema_run _ _ _ _ _ _ Hext H) as (e & st1' & He & Hm).
  destruct (ObjectParser.extends ext) as [baseZodObject|] eqn:Hextends.
  - destruct (ObjectParser.object_def baseZodObject) as [base|] eqn:Hbase.
    + destruct (createExtendedSchema_run _ _ _ _ _ _ _ _ Hext Hbase He)
        as (st1 & Hreg & Hcase).
      destruct (ObjectParser.schemas st1 !! zid baseZodObject) as [c|] eqn:Hc;
        [destruct (ObjectParser.createDiffOpts (ObjectParser.options_of base)
                     (ObjectParser.options_of ext)) as [diffOpts|] eqn:Ho;
         [destruct (ObjectParser.createShapeDiff (ObjectParser.shape base)
                      (ObjectParser.shape ext)) as [diffShape|] eqn:Hd|]|].
      * destruct Hcase as (e0 & Hflat & ->). destruct Hm as [-> <-].
        apply createDiffOpts_Some in Ho as (_ & _ & ->).
        exists baseZodObject, base, st1, c, diffShape, e0.
        repeat (split; [done|]).
        pose proof Hflat as Hlit.
        apply createObjectSchemaFromShape_run in Hlit
          as (p & st2 & req & ap & _ & _ & _ & _ & _ & _ & Hs & _).
        simpl. rewrite Hs. apply allOf_cons_literal.
      * destruct Hcase as [-> ->].
        rewrite (flat_fragment_no_allOf _ _ _ _ _ _ Hm) in Hkey. discriminate.
      * destruct Hcase as [-> ->].
        rewrite (flat_fragment_no_allOf _ _ _ _ _ _ Hm) in Hkey. discriminate.
      * assert (e = None /\ st1' = st1) as [-> ->].
        { destruct (ObjectParser.createDiffOpts (ObjectParser.options_of base)
                      (ObjectParser.options_of ext));
            [destruct (ObjectParser.createShapeDiff (ObjectParser.shape base)
                         (ObjectParser.shape ext))|]; exact Hcase. }
        rewrite (flat_fragment_no_allOf _ _ _ _ _ _ Hm) in Hkey. discriminate.
    + unfold ObjectParser.createExtendedSchema in He.
      rewrite Hext, Hbase in He. discriminate.
  - injection He as <- <-.
    rewrite (flat_fragment_no_allOf _ _ _ _ _ _ Hm) in Hkey. discriminate.
Qed.

Lemma extension_fragment_is_diff_with_allOf_witness :
  exists baseZodObject base st1 c diffShape e,
    ObjectParser.extends Fixtures.object2_def = Some baseZodObject
    /\ ObjectParser.object_def baseZodObject = Some base
    /\ ObjectParser.registerBase Fixtures.dispatcher baseZodObject
         Fixtures.createOutputState = (Return tt, st1)
    /\ ObjectParser.schemas st1 !! zid baseZodObject = Some c
    /\ ObjectParser.createShapeDiff (ObjectParser.shape base)
         (ObjectParser.shape Fixtures.object2_def) = Some diffShape
    /\ ObjectParser.createObjectSchemaFromShape Fixtures.dispatcher diffShape
         (ObjectParser.options_of Fixtures.object2_def) st1
       = (Return e, Fixtures.obj1_complete)
    /\ ObjectParser.schema (Fixtures.fragment Fixtures.object2_fragment)
       = ("allOf", ObjectParser.allOf_reference c Fixtures.obj1_complete)
         :: ObjectParser.schema e.
Proof.
  apply (extension_fragment_is_diff_with_allOf Fixtures.dispatcher
           Fixtures.object2 Fixtures.object2_def Fixtures.createOutputState
           Fixtures.obj1_complete (Fixtures.fragment Fixtures.object2_fragment)).
  - reflexivity.
  - by vm_compute.
  - reflexivity.
Defined.

(** ** Errors in the object composer *)

Lemma bind_Throw {S A B} (c : M S A) (k : A -> M S B) (s s' : S) (e : Error) :
  bind c k s = (Throw e, s')
  <-> c s = (Throw e, s')
      \/ exists a s1, c s = (Return a, s1) /\ k a s1 = (Throw e, s').
Proof.
  unfold bind. destruct (c s) as [[a|e0] s1]; simpl; split.
  - intros H. right. by exists a, s1.
  - intros [H|(a0 & s0 & H1 & H)]; [discriminate|].
    injection H1 as -> ->. exact H.
  - intros [= -> ->]. by left.
  - intros [[= -> ->]|(a0 & s0 & H & _)]; [done | discriminate].
Qed.

Section ErrorFacts.
Import ObjectParser.

Variable createSchemaObject : ZodType -> list string -> M SchemaState Schema.

Lemma mapProperties_reduce_Throw (shape : list (string * ZodType)) :
  forall (acc : PropertyMap) (st st' : SchemaState) (e : Error),
    reduceM (mapProperties_step createSchemaObject) shape acc st = (Throw e, st')
    <-> children_fail createSchemaObject shape st e st'.
Proof.
  induction shape as [|[key z] shape IH]; intros acc st st' e.
  - simpl. split; [discriminate | inversion 1].
  - simpl. rewrite bind_Throw.
    fold (is_sentinel z). destruct (is_sentinel z) eqn:Hs.
    + unfold ret. split.
      * intros [H|(a & s1 & [= <- <-] & H)]; [discriminate|].
        apply children_fail_skip; [done|]. by apply IH in H.
      * intros H. inversion H; subst; try congruence.
        right. exists acc, st. split; [done|]. by apply IH.
    + rewrite bind_Throw. split.
      * intros [[H|(s & s1 & _ & H)]|(a & s1 & Hstep & H)].
        -- by apply children_fail_here.
        -- discriminate.
        -- apply bind_Return in Hstep as (s & s2 & Hcall & [= <- <-]).
           eapply children_fail_later; [done | exact Hcall |]. by apply IH in H.
      * intros H. inversion H; subst; try congruence.
        -- left. by left.
        -- right. eexists. exists st1. split.
           ++ unfold bind. match goal with Hc : createSchemaObject _ _ _ = _ |- _ =>
                rewrite Hc end. reflexivity.
           ++ by apply IH.
Qed.

Lemma children_run_reduce (shape : list (string * ZodType))
  (st st' : SchemaState) (children : list (string * Schema)) :
  children_run createSchemaObject shape st children st' ->
  forall acc, exists acc',
    reduceM (mapProperties_step createSchemaObject) shape acc st = (Return acc', st').
Proof.
  induction 1 as [|key z rest st children st' Hs _ IH
                  |key z rest st s st1 children st' Hs Hcall _ IH]; intros acc.
  - by exists acc.
  - simpl. unfold bind at 1. fold (is_sentinel z).
    rewrite Hs. apply IH.
  - simpl. unfold bind at 1. fold (is_sentinel z).
    rewrite Hs. unfold bind at 1. rewrite Hcall. apply IH.
Qed.

Lemma mapProperties_Throw (shape : list (string * ZodType))
  (st st' : SchemaState) (e : Error) :
  mapProperties createSchemaObject shape st = (Throw e, st')
  <-> children_fail createSchemaObject shape st e st'.
Proof.
  unfold mapProperties. destruct shape as [|entry shape].
  - simpl. split; [discriminate | inversion 1].
  - cbn [length Nat.eqb]. rewrite bind_Throw, mapProperties_reduce_Throw.
    split; [|by left]. intros [H|(a & s1 & _ & H)]; [done | discriminate].
Qed.

Lemma children_run_mapProperties (shape : list (string * ZodType))
  (st st' : SchemaState) (children : list (string * Schema)) :
  children_run createSchemaObject shape st children st' ->
  exists p, mapProperties createSchemaObject shape st = (Return p, st').
Proof.
  intros Hrun. unfold mapProperties. destruct shape as [|entry shape].
  - inversion Hrun; subst. by exists None.
  - cbn [length Nat.eqb].
    destruct (children_run_reduce _ _ _ _ Hrun
                {| properties := []; property_effects := [] |}) as [acc' Hacc].
    exists (Some acc'). unfold bind. by rewrite Hacc.
Qed.

End ErrorFacts.

(** X12.  [createObjectSchemaFromShape] raises no error of its own: it
    throws exactly when a nested call of the dispatcher throws, on a field
    that is no sentinel after the fields before it were synthesized, or on
    a catch-all that is not the never sentinel after all the fields were;
    the error and the state are those of that call, and no later call is
    made. *)
Theorem composer_throws_what_a_child_throws
  (createSchemaObject : ZodType -> list string
                        -> M ObjectParser.SchemaState ObjectParser.Schema)
  (shape : list (string * ZodType)) (opts : ObjectParser.AdditionalPropertyOptions)
  (st st' : ObjectParser.SchemaState) (e : Error) :
  ObjectParser.createObjectSchemaFromShape createSchemaObject shape opts st
  = (Throw e, st')
  <-> ObjectParser.children_fail createSchemaObject shape st e st'
      \/ exists children st1,
           ObjectParser.children_run createSchemaObject shape st children st1
           /\ typeName (ObjectParser.catchAll opts) <> ZodNever
           /\ createSchemaObject (ObjectParser.catchAll opts)
                ["additional properties"] st1 = (Throw e, st').
Proof.
  unfold ObjectParser.createObjectSchemaFromShape.
  rewrite bind_Throw, mapProperties_Throw.
  assert (forall p st1,
            (let* required := ObjectParser.mapRequired shape in
             let* additionalProperties :=
               ObjectParser.createAdditionalProperties createSchemaObject
                 (ObjectParser.catchAll opts) in
             ret {| ObjectParser.type := ObjectParser.KSchema;
                    ObjectParser.schema :=
                      ObjectParser.object_literal p required
                        (ObjectParser.unknownKeys opts) additionalProperties;
                    ObjectParser.effects :=
                      ObjectParser.flattenEffects
                        (match p with
                         | Some pm => ObjectParser.property_effects pm
                         | None => []
                         end
                         ++ [match additionalProperties with
                             | Some ap => ObjectParser.effects ap
                             | None => None
                             end;
                             match required with
                             | Some r => ObjectParser.required_effects r
                             | None => None
                             end]) |})%js st1 = (Throw e, st')
            <-> typeName (ObjectParser.catchAll opts) <> ZodNever
                /\ createSchemaObject (ObjectParser.catchAll opts)
                     ["additional properties"] st1 = (Throw e, st')) as Hrest.
  { intros p st1. rewrite bind_Throw.
    destruct (mapRequired_run shape st1) as (req & Hreq & _). rewrite Hreq.
    split.
    - intros [H|(a & s1 & [= <- <-] & H)]; [discriminate|].
      apply bind_Throw in H as [H|(a & s1 & _ & H)]; [|discriminate].
      unfold ObjectParser.createAdditionalProperties, ObjectParser.isZodType in H.
      destruct (typeName (ObjectParser.catchAll opts)); simpl in H;
        try (apply bind_Throw in H as [H|(a & s1 & _ & H)];
             [split; [discriminate | exact H] | discriminate]).
      discriminate.
    - intros [Hne Hcall]. right. exists (Some req), st1. split; [done|].
      apply bind_Throw. left.
      unfold ObjectParser.createAdditionalProperties, ObjectParser.isZodType.
      destruct (typeName (ObjectParser.catchAll opts)); simpl;
        try (apply bind_Throw; by left).
      congruence. }
  split.
  - intros [H|(p & st1 & Hp & H)]; [by left|]. right.
    apply Hrest in H as [Hne Hcall].
    apply mapProperties_run in Hp as (children & Hrun & _).
    by exists children, st1.
  - intros [H|(children & st1 & Hrun & Hne & Hcall)]; [by left|]. right.
    destruct (children_run_mapProperties _ _ _ _ _ Hrun) as [p Hp].
    exists p, st1. split; [done|]. by apply Hrest.
Qed.

(** ** The fields of the fragment and the nested calls *)

Lemma obj_get_In_NoDup {V} (k : string) (v : V) (o : list (string * V)) :
  List.NoDup (keys o) -> In (k, v) o -> obj_get k o = Some v.
Proof.
  unfold keys. induction o as [|[k0 v0] o IH]; simpl; [tauto|].
  intros Hnd. inversion Hnd as [|? ? Hnot Hnd']; subst.
  intros [[= -> ->]|Hin].
  - by rewrite String.eqb_refl.
  - destruct (String.eqb_spec k k0) as [->|_]; [|by apply IH].
    exfalso. apply Hnot. change (In (fst (k0, v)) (map fst o)). by apply in_map.
Qed.

Lemma obj_get_None_keys {V} (k : string) (o : list (string * V)) :
  obj_get k o = None <-> ~ In k (keys o).
Proof.
  unfold keys. induction o as [|[k0 v0] o IH]; simpl; [tauto|].
  destruct (String.eqb_spec k k0) as [->|Hne].
  - split; [discriminate | intros H; exfalso; apply H; by left].
  - rewrite IH. split.
    + intros H [Heq|Hin]; [congruence | done].
    + intros H Hin. apply H. by right.
Qed.

Lemma obj_get_Some_keys {V} (k : string) (v : V) (o : list (string * V)) :
  obj_get k o = Some v -> In k (keys o).
Proof.
  unfold keys. induction o as [|[k0 v0] o IH]; simpl; [discriminate|].
  destruct (String.eqb_spec k k0) as [->|_]; [by left | right; by apply IH].
Qed.

Section ChildFacts.
Import ObjectParser.

Variable createSchemaObject : ZodType -> list string -> M SchemaState Schema.

(** The calls on the fields of a shape, split at a field that is no
    sentinel: the fields before it run first, then the field, from the
    state they left, then the fields after it. *)
Lemma children_run_split (before after : list (string * ZodType))
  (key : string) (z : ZodType) :
  is_sentinel z = false ->
  forall (st st' : SchemaState) (children : list (string * Schema)),
    children_run createSchemaObject (before ++ (key, z) :: after) st children st' ->
    exists earlier sa s sb later,
      children_run createSchemaObject before st earlier sa
      /\ createSchemaObject z ["property: " +:+ key] sa = (Return s, sb)
      /\ children_run createSchemaObject after sb later st'
      /\ children = earlier ++ (key, s) :: later.
Proof.
  intros Hz. induction before as [|[k0 z0] before IH];
    intros st st' children Hrun; simpl in Hrun.
  - inversion Hrun as [|? ? ? ? ? ? Hs0 Hrest
                       |? ? ? ? s ? later ? Hs0 Hcall Hrest]; subst;
      [congruence|].
    exists [], st, s. eexists. exists later.
    split; [constructor|]. eauto.
  - inversion Hrun as [|? ? ? ? ? ? Hs0 Hrest
                       |? ? ? ? s0 ? rest ? Hs0 Hcall0 Hrest]; subst.
    + destruct (IH _ _ _ Hrest)
        as (earlier & sa & s & sb & later & Hb & Hc & Ha & ->).
      exists earlier, sa, s, sb, later. split; [by apply children_skip | done].
    + destruct (IH _ _ _ Hrest)
        as (earlier & sa & s & sb & later & Hb & Hc & Ha & ->).
      exists ((k0, s0) :: earlier), sa, s, sb, later.
      split; [by eapply children_call | done].
Qed.

End ChildFacts.

(** X13.  [mapProperties] by way of [createObjectSchemaFromShape]: on a
    shape with distinct keys, the value of [properties] at a field that is
    no sentinel and is not named [__proto__] is the fragment the
    dispatcher returned for that field's node, called with the path
    segment [property: <key>] from the state that the synthesis of the
    fields before it left. *)
Theorem property_is_the_field_fragment
  (createSchemaObject : ZodType -> list string
                        -> M ObjectParser.SchemaState ObjectParser.Schema)
  (before after : list (string * ZodType))
  (opts : ObjectParser.AdditionalPropertyOptions)
  (st st' : ObjectParser.SchemaState) (r : ObjectParser.Schema)
  (key : string) (z : ZodType) :
  ObjectParser.createObjectSchemaFromShape createSchemaObject
    (before ++ (key, z) :: after) opts st = (Return r, st') ->
  List.NoDup (keys (before ++ (key, z) :: after)) ->
  ObjectParser.is_sentinel z = false ->
  key <> "__proto__" ->
  exists earlier sa s sb,
    ObjectParser.children_run createSchemaObject before st earlier sa
    /\ createSchemaObject z ["property: " +:+ key] sa = (Return s, sb)
    /\ obj_get key (ObjectParser.fragment_properties (ObjectParser.schema r))
       = Some (JObject (ObjectParser.schema s)).
Proof.
  intros H Hnd Hz Hkey. apply createObjectSchemaFromShape_run in H
    as (p & st1 & req & ap & Hp & _ & _ & _ & _ & _ & Hs & _).
  apply mapProperties_run in Hp as (children & Hrun & Hpm).
  destruct (children_run_split _ _ _ _ _ Hz _ _ _ Hrun)
    as (earlier & sa & s & sb & later & Hb & Hcall & _ & Hchildren).
  exists earlier, sa, s, sb. split; [done|]. split; [done|].
  assert (List.NoDup (keys children)) as Hndc.
  { unfold keys. rewrite (children_run_keys _ _ _ _ _ Hrun).
    by apply NoDup_keys_filter. }
  unfold ObjectParser.fragment_properties.
  rewrite Hs, object_literal_properties.
  destruct p as [pm|]; [|by destruct before].
  destruct Hpm as (_ & -> & _).
  rewrite write_properties_fresh; [|done|intros k _ []]. simpl.
  apply obj_get_In_NoDup.
  - unfold keys. rewrite map_map. simpl.
    apply (NoDup_keys_filter
             (fun kc : string * ObjectParser.Schema =>
                negb (String.eqb (fst kc) "__proto__")) children Hndc).
  - apply in_map_iff. exists (key, s). split; [done|].
    apply filter_In. split.
    + rewrite Hchildren. apply in_or_app. right. by left.
    + simpl. apply negb_true_iff. by apply String.eqb_neq.
Qed.

Lemma property_is_the_field_fragment_witness :
  exists earlier sa s sb,
    ObjectParser.children_run Fixtures.dispatcher
      [("a", Fixtures.z_string 2)] Fixtures.createOutputState earlier sa
    /\ Fixtures.dispatcher (Fixtures.z_optional 3 (Fixtures.z_string 4))
         ["property: " +:+ "b"] sa
       = (Return s, sb)
    /\ obj_get "b" (ObjectParser.fragment_properties
                      (ObjectParser.schema Fixtures.simple_expected))
       = Some (JObject (ObjectParser.schema s)).
Proof.
  apply (property_is_the_field_fragment Fixtures.dispatcher
           [("a", Fixtures.z_string 2)] []
           {| ObjectParser.unknownKeys := Some strip;
              ObjectParser.catchAll := Fixtures.z_never 1001 |}
           Fixtures.createOutputState Fixtures.createOutputState
           Fixtures.simple_expected
           "b" (Fixtures.z_optional 3 (Fixtures.z_string 4))).
  - by vm_compute.
  - unfold keys. simpl. repeat constructor; simpl; intuition discriminate.
  - reflexivity.
  - discriminate.
Defined.

(** X14.  [createObjectSchema] on an extension whose base has no entry in
    the registry and asks for no name: the dispatcher is not called on the
    base, and the call is [createObjectSchemaFromShape] on the whole shape
    of the extension, for its result, its state and its errors. *)
Theorem unnamed_base_is_inlined
  (createSchemaObject : ZodType -> list string
                        -> M ObjectParser.SchemaState ObjectParser.Schema)
  (zodObject baseZodObject : ZodType) (ext : ObjectParser.ZodObjectDefT)
  (st : ObjectParser.SchemaState) :
  ObjectParser.object_def zodObject = Some ext ->
  ObjectParser.extends ext = Some baseZodObject ->
  is_Some (ObjectParser.object_def baseZodObject) ->
  ObjectParser.schemas st !! zid baseZodObject = None ->
  truthy_string (openapi_ref baseZodObject) = false ->
  ObjectParser.createObjectSchema createSchemaObject zodObject st
  = ObjectParser.createObjectSchemaFromShape createSchemaObject
      (ObjectParser.shape ext) (ObjectParser.options_of ext) st.
Proof.
  intros Hext Hbase [base Hb] Hreg Hname.
  unfold ObjectParser.createObjectSchema. rewrite Hext, Hbase.
  unfold ObjectParser.createExtendedSchema. rewrite Hext, Hb.
  unfold ObjectParser.registerBase.
  unfold bind at 1 2 3. unfold get_state at 1. rewrite Hreg, Hname.
  unfold ret at 1. unfold bind at 1. unfold get_state at 1. by rewrite Hreg.
Qed.

Lemma unnamed_base_is_inlined_witness :
  ObjectParser.createObjectSchema Fixtures.dispatcher
    (Fixtures.z_object 20 None
       [("a", Fixtures.field_a); ("b", Fixtures.z_string 21)]
       (Some (Fixtures.z_object 10 None [("a", Fixtures.field_a)] None)))
    Fixtures.createOutputState
  = ObjectParser.createObjectSchemaFromShape Fixtures.dispatcher
      [("a", Fixtures.field_a); ("b", Fixtures.z_string 21)]
      {| ObjectParser.unknownKeys := Some strip;
         ObjectParser.catchAll := Fixtures.z_never 1020 |}
      Fixtures.createOutputState.
Proof.
  apply (unnamed_base_is_inlined Fixtures.dispatcher
           (Fixtures.z_object 20 None
              [("a", Fixtures.field_a); ("b", Fixtures.z_string 21)]
              (Some (Fixtures.z_object 10 None [("a", Fixtures.field_a)] None)))
           (Fixtures.z_object 10 None [("a", Fixtures.field_a)] None)
           {| ObjectParser.shape :=
                [("a", Fixtures.field_a); ("b", Fixtures.z_string 21)];
              ObjectParser.def_unknownKeys := strip;
              ObjectParser.catchall := Fixtures.z_never 1020;
              ObjectParser.extends :=
                Some (Fixtures.z_object 10 None [("a", Fixtures.field_a)] None) |}).
  - reflexivity.
  - reflexivity.
  - by eexists.
  - reflexivity.
  - reflexivity.
Defined.

(** ** The diff of a shape that extends another *)

Section DiffOfExtend.
Import ObjectParser.

Lemma filter_added (base added rest : list (string * ZodType)) :
  (forall k, In k (keys added) -> ~ In k (keys base)) ->
  (forall e, In e rest -> In e base) ->
  List.filter (fun e => negb (has_key (fst e) base)) (rest ++ added) = added.
Proof.
  intros Hfresh Hrest. rewrite List.filter_app.
  assert (List.filter (fun e => negb (has_key (fst e) base)) rest = []) as ->.
  { induction rest as [|[k v] rest IH]; simpl; [done|].
    unfold has_key at 1. simpl.
    destruct (obj_get k base) eqn:Hget.
    - simpl. apply IH. intros e He. apply Hrest. by right.
    - exfalso. apply obj_get_None_keys in Hget. apply Hget.
      unfold keys. change (In (fst (k, v)) (map fst base)).
      apply in_map. apply Hrest. by left. }
  simpl. clear Hrest. induction added as [|[k v] added IH]; simpl; [done|].
  unfold has_key at 1. simpl.
  assert (obj_get k base = None) as ->.
  { apply obj_get_None_keys. apply Hfresh. unfold keys. simpl. by left. }
  simpl. f_equal. apply IH. intros k' Hk'. apply Hfresh.
  unfold keys in *. simpl. by right.
Qed.

End DiffOfExtend.

(** X15.  [createShapeDiff] undoes an extension by fresh keys: when the
    extended shape is the base followed by added fields, all keys distinct
    and no added key the name of a member of [Object.prototype], the diff
    succeeds and is the added fields. *)
Theorem createShapeDiff_of_extend (base added : list (string * ZodType)) :
  List.NoDup (keys (base ++ added)) ->
  (forall k, In k (keys added) -> is_prototype_member k = false) ->
  ObjectParser.createShapeDiff base (base ++ added) = Some added.
Proof.
  intros Hnd Hplain.
  assert (List.NoDup (keys base)
          /\ forall k, In k (keys added) -> ~ In k (keys base)) as [Hb Hfresh].
  { unfold keys in *. rewrite map_app in Hnd. split.
    - by apply NoDup_app_remove_r in Hnd.
    - intros k Ha Hbk. revert Hnd Ha Hbk. generalize (map fst added) as la.
      generalize (map fst base) as lb. clear.
      induction lb as [|x lb IH]; simpl; intros la Hnd Ha Hbk; [done|].
      inversion Hnd as [|? ? Hnot Hnd']; subst. destruct Hbk as [->|Hbk].
      + apply Hnot. apply in_or_app. by right.
      + by apply (IH la). }
  destruct (proj2 (createShapeDiff_Some base (base ++ added))) as [d Hd].
  { split.
    - intros k v bv Hin Hget. apply in_app_or in Hin as [Hin|Hin].
      + apply (obj_get_In_NoDup _ _ _ Hb) in Hin. congruence.
      + exfalso. apply (Hfresh k).
        * unfold keys. change (In (fst (k, v)) (map fst added)).
          by apply in_map.
        * by apply obj_get_Some_keys in Hget.
    - intros k v Hin Hget. apply in_app_or in Hin as [Hin|Hin].
      + apply (obj_get_In_NoDup _ _ _ Hb) in Hin. congruence.
      + apply Hplain. unfold keys. change (In (fst (k, v)) (map fst added)).
        by apply in_map. }
  rewrite Hd. f_equal. unfold ObjectParser.createShapeDiff in Hd.
  apply createShapeDiff_loop_Some in Hd; [|done|intros k _ []].
  rewrite Hd. simpl. by apply filter_added.
Qed.

Lemma createShapeDiff_of_extend_witness :
  ObjectParser.createShapeDiff
    [("a", Fixtures.field_a)]
    ([("a", Fixtures.field_a)] ++ [("b", Fixtures.z_string 21)])
  = Some [("b", Fixtures.z_string 21)].
Proof.
  apply (createShapeDiff_of_extend
           [("a", Fixtures.field_a)] [("b", Fixtures.z_string 21)]).
  - unfold keys. simpl. repeat constructor; simpl; intuition discriminate.
  - intros k [<-|[]]. reflexivity.
Defined.
